(** * Sutter Lambda 10-3 device adaptor: model of [Controller]

    A shallow embedding of [sutter_Lambda_10_3_JLD.py].  The methods of the
    [Controller] class become computations in a state-and-exception monad
    over the instance's attributes; the serial port is an interface
    ([Transport]) so that every statement holds for any device behaviour,
    and a scripted port ([Mock]) gives concrete runs.

    Printing is not modelled: the [verbose] attribute is kept only because
    one [raise] of [__init__] sits under it.  Assertions are modelled as
    enabled (the interpreter is not run with -O). *)

From Stdlib Require Import ZArith List String Ascii Bool Lia.
Import ListNotations.
Open Scope string_scope.
Open Scope list_scope.
Open Scope Z_scope.

(** ** Python values and exceptions *)

(** The arguments the methods receive are duck-typed.  The model keeps the
    values the source documents for them (integers and strings) and [None]
    as a representative of everything else. *)
Inductive value : Type :=
| VInt (z : Z)
| VStr (s : string)
| VNone.

(** Python's [==] on these values. *)
Definition py_eq (a b : value) : bool :=
  match a, b with
  | VInt x, VInt y => x =? y
  | VStr s, VStr t => String.eqb s t
  | VNone, VNone => true
  | _, _ => false
  end.

(** [x in xs] for a list (or a dict's [values()]). *)
Definition py_in (x : value) (xs : list value) : bool :=
  existsb (py_eq x) xs.

(** [range(n)] as the list of its members. *)
Definition range (n : nat) : list value :=
  map (fun i => VInt (Z.of_nat i)) (seq 0 n).

Inductive exn : Type :=
| AssertionError
| ValueError
| IOError
| RuntimeError
| IndexError
| TypeError
| UnicodeDecodeError
| UnboundLocalError.

Inductive result (A : Type) : Type :=
| Ok (a : A)
| Raise (e : exn).
Arguments Ok {A} a.
Arguments Raise {A} e.

(** ** Channel names and numbers *)

(** The dictionaries [names_to_channels] and [channels_to_names], kept as
    association lists in the order they are written. *)
Definition names_to_channels : list (value * value) :=
  [(VStr "A", VInt 0); (VStr "B", VInt 1)].

Definition channels_to_names : list (value * value) :=
  [(VInt 0, VStr "A"); (VInt 1, VStr "B")].

Definition dict_values (d : list (value * value)) : list value := map snd d.

Fixpoint dict_get (d : list (value * value)) (k : value) : option value :=
  match d with
  | [] => None
  | (k', v) :: d' => if py_eq k k' then Some v else dict_get d' k
  end.

Definition translate (d : list (value * value)) (name_or_channel : value)
  : result value :=
  if py_in name_or_channel (dict_values d) then Ok name_or_channel
  else match dict_get d name_or_channel with
       | Some v => Ok v
       | None => Raise ValueError
       end.

Definition n2c (name_or_channel : value) : result value :=
  translate names_to_channels name_or_channel.

Definition c2n (name_or_channel : value) : result value :=
  translate channels_to_names name_or_channel.

(** ** Bytes *)

(** A byte is an integer in 0..255.  [bytes([...])] raises [ValueError] on
    anything else. *)
Definition is_byte (z : Z) : bool := (0 <=? z) && (z <? 256).

Definition bytes (zs : list Z) : result (list Z) :=
  if forallb is_byte zs then Ok zs else Raise ValueError.

Definition CR : Z := 13.

Fixpoint bytes_eqb (a b : list Z) : bool :=
  match a, b with
  | [], [] => true
  | x :: a', y :: b' => (x =? y) && bytes_eqb a' b'
  | _, _ => false
  end.

(** [b.decode('ASCII')]. *)
Definition decode_ascii (bs : list Z) : result string :=
  if forallb (fun z => (0 <=? z) && (z <? 128)) bs
  then Ok (string_of_list_ascii (map (fun z => ascii_of_N (Z.to_N z)) bs))
  else Raise UnicodeDecodeError.

(** [s[a:b]] for [0 <= a <= b]. *)
Definition slice (a b : nat) (s : string) : string :=
  substring a (b - a)%nat s.

(** [s[a:]]. *)
Definition slice_from (a : nat) (s : string) : string :=
  substring a (String.length s - a)%nat s.

(** ** The serial port *)

(** What the adaptor asks of [serial.Serial]. *)
Class Transport (T : Type) : Type := {
  port_write : list Z -> T -> T;
  port_read : nat -> T -> list Z * T;
  port_readline : T -> list Z * T;
  port_in_waiting : T -> nat
}.

(** The calls made on the port, in the order they are made. *)
Inductive io_event : Type :=
| EvWrite (cmd : list Z)
| EvRead (n : nat) (response : list Z)
| EvReadline (response : list Z)
| EvInWaiting (n : nat).

Definition is_write (e : io_event) : bool :=
  match e with EvWrite _ => true | _ => false end.

Definition is_read (e : io_event) : bool :=
  match e with EvRead _ _ | EvReadline _ => true | _ => false end.

(** [l[i] = v], with Python's negative indices. *)
Definition list_setitem (l : list Z) (i v : Z) : result (list Z) :=
  let n := Z.of_nat (List.length l) in
  if (0 <=? i) && (i <? n) then
    Ok (firstn (Z.to_nat i) l ++ v :: skipn (S (Z.to_nat i)) l)
  else if (- n <=? i) && (i <? 0) then
    Ok (firstn (Z.to_nat (n + i)) l ++ v :: skipn (S (Z.to_nat (n + i))) l)
  else Raise IndexError.

(** The integer behind a value used in arithmetic. *)
Definition as_int (v : value) : result Z :=
  match v with
  | VInt z => Ok z
  | _ => Raise TypeError
  end.

(** ** The controller *)

Section Controller.

Context {T : Type} `{Transport T}.

(** The attributes of a [Controller] instance, and the log of the calls
    it has made on its port. *)
Record Controller : Type := mkController {
  verbose : bool;
  port : T;
  wheels : list Z;
  shutters : list Z;
  _pending_cmd : option (list Z);
  wheel_target_positions : list Z;
  io_log : list io_event
}.

(** A method body: it ends normally or by raising, and either way leaves
    the instance in some state. *)
Definition M (A : Type) : Type := Controller -> result A * Controller.

Definition ret {A} (a : A) : M A := fun self => (Ok a, self).

Definition bind {A B} (m : M A) (k : A -> M B) : M B :=
  fun self =>
    match m self with
    | (Ok a, self') => k a self'
    | (Raise e, self') => (Raise e, self')
    end.

Definition raise {A} (e : exn) : M A := fun self => (Raise e, self).

Definition lift {A} (r : result A) : M A := fun self => (r, self).

Definition gets {A} (f : Controller -> A) : M A :=
  fun self => (Ok (f self), self).

Definition modify (f : Controller -> Controller) : M unit :=
  fun self => (Ok tt, f self).

Definition assert (b : bool) : M unit :=
  if b then ret tt else raise AssertionError.

Definition when (b : bool) (m : M unit) : M unit :=
  if b then m else ret tt.

Fixpoint for_each {A} (xs : list A) (body : A -> M unit) : M unit :=
  match xs with
  | [] => ret tt
  | x :: xs' => bind (body x) (fun _ => for_each xs' body)
  end.

End Controller.

Arguments Controller T : clear implicits.
Arguments M T A : clear implicits.

Declare Scope py_scope.
Delimit Scope py_scope with py.
Notation "x <- m ;; k" := (bind m (fun x => k))
  (at level 61, m at next level, right associativity) : py_scope.
Notation "m ;; k" := (bind m (fun _ => k))
  (at level 61, right associativity) : py_scope.
Open Scope py_scope.

Section Methods.

Context {T : Type} `{Transport T}.

(** *** Attribute assignment *)

Definition set_wheels (ws : list Z) : M T unit :=
  modify (fun self =>
    mkController (verbose self) (port self) ws (shutters self)
      (_pending_cmd self) (wheel_target_positions self) (io_log self)).

Definition set_shutters (ss : list Z) : M T unit :=
  modify (fun self =>
    mkController (verbose self) (port self) (wheels self) ss
      (_pending_cmd self) (wheel_target_positions self) (io_log self)).

Definition set_pending_cmd (p : option (list Z)) : M T unit :=
  modify (fun self =>
    mkController (verbose self) (port self) (wheels self) (shutters self)
      p (wheel_target_positions self) (io_log self)).

Definition set_wheel_target_positions (ps : list Z) : M T unit :=
  modify (fun self =>
    mkController (verbose self) (port self) (wheels self) (shutters self)
      (_pending_cmd self) ps (io_log self)).

(** *** Calls on the port *)

Definition io (t : T) (e : io_event) (self : Controller T) : Controller T :=
  mkController (verbose self) t (wheels self) (shutters self)
    (_pending_cmd self) (wheel_target_positions self) (io_log self ++ [e]).

Definition write (cmd : list Z) : M T unit :=
  fun self => (Ok tt, io (port_write cmd (port self)) (EvWrite cmd) self).

Definition read (n : nat) : M T (list Z) :=
  fun self =>
    let (response, t) := port_read n (port self) in
    (Ok response, io t (EvRead n response) self).

Definition readline : M T (list Z) :=
  fun self =>
    let (response, t) := port_readline (port self) in
    (Ok response, io t (EvReadline response) self).

Definition in_waiting : M T nat :=
  fun self =>
    let n := port_in_waiting (port self) in
    (Ok n, io (port self) (EvInWaiting n) self).

(** *** Methods *)

Definition _finish_moving : M T unit :=
  pending <- gets _pending_cmd ;;
  match pending with
  | None => ret tt
  | Some cmd =>
      response <- read (List.length cmd + 1)%nat ;;
      if negb (bytes_eqb response (cmd ++ [CR])) then raise IOError
      else
        set_pending_cmd None ;;
        n <- in_waiting ;;
        assert (n =? 0)%nat
  end.

(** [if self._pending_cmd is not None: self._finish_moving()]. *)
Definition finish_if_pending : M T unit :=
  pending <- gets _pending_cmd ;;
  match pending with
  | Some _ => _finish_moving
  | None => ret tt
  end.

Definition move (position wheel speed : value) (block : bool) : M T unit :=
  wheel <- lift (n2c wheel) ;;
  ws <- gets wheels ;;
  assert (py_in wheel (map VInt ws)) ;;
  finish_if_pending ;;
  assert (py_in position (range 10)) ;;
  assert (py_in speed (range 8)) ;;
  w <- lift (as_int wheel) ;;
  s <- lift (as_int speed) ;;
  p <- lift (as_int position) ;;
  cmd <- lift (bytes [Z.shiftl w 7 + Z.shiftl s 4 + p]) ;;
  write cmd ;;
  set_pending_cmd (Some cmd) ;;
  ps <- gets wheel_target_positions ;;
  ps' <- lift (list_setitem ps w p) ;;
  set_wheel_target_positions ps' ;;
  when block _finish_moving.

Definition change_shutter (state shutter : value) (block : bool)
  : M T unit :=
  shutter <- lift (n2c shutter) ;;
  ss <- gets shutters ;;
  assert (py_in shutter (map VInt ss)) ;;
  assert (py_in state [VStr "closed"; VStr "open"; VInt 0; VInt 1]) ;;
  finish_if_pending ;;
  sh <- lift (as_int shutter) ;;
  cmd <- (if py_eq state (VStr "open") || py_eq state (VInt 1) then
            lift (bytes [128 + 32 + Z.shiftl sh 4 + 8 + 2])
          else if py_eq state (VStr "closed") || py_eq state (VInt 0) then
            lift (bytes [128 + 32 + Z.shiftl sh 4 + 8 + 4])
          else raise UnboundLocalError) ;;
  write cmd ;;
  set_pending_cmd (Some cmd) ;;
  when block _finish_moving.

Definition set_shutter_mode (mode shutter : value) (block : bool)
  : M T unit :=
  shutter <- lift (n2c shutter) ;;
  ss <- gets shutters ;;
  assert (py_in shutter (map VInt ss)) ;;
  assert (py_in mode [VStr "fast"; VStr "soft"]) ;;
  finish_if_pending ;;
  sh <- lift (as_int shutter) ;;
  cmd <- (if py_eq mode (VStr "fast") then lift (bytes [220; sh + 1])
          else if py_eq mode (VStr "soft") then lift (bytes [221; sh + 1])
          else raise UnboundLocalError) ;;
  write cmd ;;
  set_pending_cmd (Some cmd) ;;
  when block _finish_moving.

(** [[f(x) for x in xs]] for an [f] that may raise. *)
Fixpoint comprehension {A B} (f : A -> result B) (xs : list A)
  : result (list B) :=
  match xs with
  | [] => Ok []
  | x :: xs' =>
      match f x with
      | Raise e => Raise e
      | Ok y =>
          match comprehension f xs' with
          | Raise e => Raise e
          | Ok ys => Ok (y :: ys)
          end
      end
  end.

(** [__init__], lines 33 to 72: the checks on the controller's answer
    and the channels found in it. *)
Definition parse_configuration (configuration : list Z) : M T unit :=
  assert (negb (List.length configuration =? 36)%nat) ;;
  assert (List.length configuration =? 31)%nat ;;
  config_s <- lift (decode_ascii (skipn 5 configuration)) ;;
  let wa := slice 0 5 config_s in
  let wb := slice 5 10 config_s in
  let wc := slice 10 15 config_s in
  let sa := slice 15 20 config_s in
  let sb := slice 20 25 config_s in
  assert (String.eqb wc "WC-NC") ;;
  assert (String.eqb (slice 0 3 wa) "WA-"
          && String.eqb (slice 0 3 wb) "WB-") ;;
  assert (String.eqb (slice 0 3 sa) "SA-"
          && String.eqb (slice 0 3 sb) "SB-") ;;
  for_each [wa; wb] (fun w =>
    assert (String.eqb (slice_from 3 w) "25"
            || String.eqb (slice_from 3 w) "NC")) ;;
  for_each [sa; sb] (fun s =>
    assert (String.eqb (slice_from 3 s) "IQ"
            || String.eqb (slice_from 3 s) "VS")) ;;
  set_wheels [] ;;
  set_shutters [] ;;
  when (String.eqb wa "WA-25")
       (ws <- gets wheels ;; set_wheels (ws ++ [0])) ;;
  when (String.eqb wb "WB-25")
       (ws <- gets wheels ;; set_wheels (ws ++ [1])) ;;
  when (String.eqb sa "SA-IQ")
       (ss <- gets shutters ;; set_shutters (ss ++ [0])) ;;
  when (String.eqb sb "SB-IQ")
       (ss <- gets shutters ;; set_shutters (ss ++ [1])) ;;
  ws <- gets wheels ;;
  ss <- gets shutters ;;
  wheel_names <- lift (comprehension c2n (map VInt ws)) ;;
  shutter_names <- lift (comprehension c2n (map VInt ss)) ;;
  v <- gets verbose ;;
  when v
    (if (0 <? List.length ws)%nat && (0 <? List.length ss)%nat then ret tt
     else if (List.length ws =? 0)%nat && (0 <? List.length ss)%nat
          then ret tt
     else if (0 <? List.length ws)%nat && (List.length ss =? 0)%nat
          then ret tt
     else raise RuntimeError).

(** [__init__], lines 31 to 72: the configuration query and its
    answer. *)
Definition resolve_configuration : M T unit :=
  write [253] ;;
  configuration <- readline ;;
  parse_configuration configuration.

(** [__init__], lines 73 to 79: the bookkeeping attributes and the first
    commands. *)
Definition home : M T unit :=
  set_pending_cmd None ;;
  ws <- gets wheels ;;
  set_wheel_target_positions (repeat 0 (List.length ws)) ;;
  for_each ws (fun wheel => move (VInt 0) (VInt wheel) (VInt 6) true) ;;
  ss <- gets shutters ;;
  for_each ss (fun shutter =>
    set_shutter_mode (VStr "soft") (VInt shutter) true ;;
    change_shutter (VStr "closed") (VInt shutter) true).

Definition init_body : M T unit := resolve_configuration ;; home.

(** The instance as [__init__] finds it. *)
Definition new_instance (opened : T) (verbose : bool) : Controller T :=
  mkController verbose opened [] [] None [] [].

(** [Controller(which_port, verbose=...)] once [serial.Serial] has
    returned the open port; a port that cannot be opened raises [IOError]
    before any of this runs. *)
Definition __init__ (opened : T) (verbose : bool)
  : result unit * Controller T :=
  init_body (new_instance opened verbose).

(** The three commands a caller can issue. *)
Inductive public_call : Type :=
| CallMove (position wheel speed : value) (block : bool)
| CallChangeShutter (state shutter : value) (block : bool)
| CallSetShutterMode (mode shutter : value) (block : bool).

Definition run_call (c : public_call) : M T unit :=
  match c with
  | CallMove position wheel speed block => move position wheel speed block
  | CallChangeShutter state shutter block =>
      change_shutter state shutter block
  | CallSetShutterMode mode shutter block =>
      set_shutter_mode mode shutter block
  end.

End Methods.

(** ** A scripted port *)

(** [rx] holds the bytes received and not yet read; the device answers the
    next write with the head of [replies]. *)
Record Mock : Type := mkMock {
  rx : list Z;
  replies : list (list Z)
}.

(** The bytes of a line: up to and including the first line feed, or all
    there is when the read times out. *)
Fixpoint take_line (bs : list Z) : list Z * list Z :=
  match bs with
  | [] => ([], [])
  | b :: bs' =>
      if b =? 10 then ([b], bs')
      else let (l, r) := take_line bs' in (b :: l, r)
  end.

#[export] Instance Mock_Transport : Transport Mock := {
  port_write _ m := mkMock (rx m ++ hd [] (replies m)) (tl (replies m));
  port_read n m := (firstn n (rx m), mkMock (skipn n (rx m)) (replies m));
  port_readline m :=
    let (l, r) := take_line (rx m) in (l, mkMock r (replies m));
  port_in_waiting m := List.length (rx m)
}.

(** The bytes of an ASCII string. *)
Definition encode (s : string) : list Z :=
  map (fun c => Z.of_N (N_of_ascii c)) (list_ascii_of_string s).

(** The controller's answer to the configuration query: the query byte, the
    model name, five fields and a carriage return. *)
Definition config_frame (fields : string) : list Z :=
  [253] ++ encode "10-3" ++ encode fields ++ [CR].

(** A session set up by hand: the given channels, nothing pending. *)
Definition session (ws ss : list Z) (pending : option (list Z)) (m : Mock)
  : Controller Mock :=
  mkController false m ws ss pending (repeat 0 (List.length ws)) [].


(** ** Vocabulary of the statements *)

(** The echo of a command. *)
Definition echo (cmd : list Z) : list Z := cmd ++ [CR].

(** The move command as the protocol table writes it. *)
Definition encode_move (channel position speed : Z) : Z :=
  Z.lor (Z.lor (Z.shiftl channel 7) (Z.shiftl speed 4)) position.

(** The shutter command byte as the protocol table writes it. *)
Definition encode_shutter_state (channel : Z) (open : bool) : Z :=
  128 + 32 + 8 + Z.shiftl channel 4 + (if open then 2 else 4).

(** A stretch of the log in which nothing is written to the port. *)
Definition no_write (evs : list io_event) : bool :=
  forallb (fun e => negb (is_write e)) evs.

Section Vocabulary.

Context {T : Type} `{Transport T}.

(** What a public call made while [p] is pending adds to the log: no
    write at all, or the echo of [p] read and found alone on the port,
    and only then the one write of the call. *)
Definition serialized (p : list Z) (evs : list io_event) : Prop :=
  no_write evs = true
  \/ exists cmd rest,
       evs = EvRead (List.length p + 1) (p ++ [CR])
             :: EvInWaiting 0 :: EvWrite cmd :: rest
       /\ no_write rest = true.

Definition adds (self self' : Controller T) (P : list io_event -> Prop)
  : Prop :=
  exists evs, io_log self' = io_log self ++ evs /\ P evs.

(** The instance once [cmd] is written and recorded as pending. *)
Definition issued (cmd : list Z) (self : Controller T) : Controller T :=
  mkController (verbose self) (port_write cmd (port self)) (wheels self)
    (shutters self) (Some cmd) (wheel_target_positions self)
    (io_log self ++ [EvWrite cmd]).

Definition with_targets (ps : list Z) (self : Controller T)
  : Controller T :=
  mkController (verbose self) (port self) (wheels self) (shutters self)
    (_pending_cmd self) ps (io_log self).

End Vocabulary.

(** A controller with wheel A and a SmartShutter on A. *)
Definition frame_A : list Z := config_frame "WA-25WB-NCWC-NCSA-IQSB-VS".

(** The same with shutter A reported as not connected. *)
Definition frame_shutter_NC : list Z := config_frame "WA-25WB-NCWC-NCSA-NCSB-IQ".

(** Wheel B alone. *)
Definition frame_wheel_B : list Z := config_frame "WA-NCWB-25WC-NCSA-VSSB-VS".

(** No wheel and no SmartShutter. *)
Definition frame_nothing : list Z := config_frame "WA-NCWB-NCWC-NCSA-VSSB-VS".

(** The longer answer of a controller that reports a shutter C. *)
Definition frame_shutter_C : list Z :=
  config_frame "WA-25WB-25WC-NCSA-IQSB-IQSC-IQ".

(** ** Closing the session *)

(** What [close] asks of the port besides the calls of [Transport]. *)
Class Closing (T : Type) : Type := {
  port_close : T -> T
}.

Section Close.

Context {T : Type} `{Transport T} `{Closing T}.

(** [self.port.close()]: neither a read nor a write, it changes the port
    alone. *)
Definition close_port : M T unit :=
  modify (fun self =>
    mkController (verbose self) (port_close (port self)) (wheels self)
      (shutters self) (_pending_cmd self) (wheel_target_positions self)
      (io_log self)).

Definition close : M T unit :=
  ws <- gets wheels ;;
  for_each ws (fun wheel => move (VInt 0) (VInt wheel) (VInt 6) true) ;;
  ss <- gets shutters ;;
  for_each ss (fun shutter =>
    change_shutter (VStr "closed") (VInt shutter) true) ;;
  close_port.

End Close.

(** Closing the scripted port drops what it had received. *)
#[export] Instance Mock_Closing : Closing Mock := {
  port_close m := mkMock [] (replies m)
}.

(** ** Vocabulary of the further statements *)

Section Calls.

Context {T : Type} `{Transport T}.

(** The channel argument of a call, and the list it is looked up in. *)
Definition channel_of (c : public_call) : value :=
  match c with
  | CallMove _ wheel _ _ => wheel
  | CallChangeShutter _ shutter _ => shutter
  | CallSetShutterMode _ shutter _ => shutter
  end.

Definition channels_for (c : public_call) (self : Controller T) : list Z :=
  match c with
  | CallMove _ _ _ _ => wheels self
  | _ => shutters self
  end.

(** Whether the word of a shutter call is one the method takes; a move
    has no word. *)
Definition token_ok (c : public_call) : bool :=
  match c with
  | CallMove _ _ _ _ => true
  | CallChangeShutter state _ _ =>
      py_in state [VStr "closed"; VStr "open"; VInt 0; VInt 1]
  | CallSetShutterMode mode _ _ => py_in mode [VStr "fast"; VStr "soft"]
  end.

(** The bytes a call writes on channel [ch], when its arguments pass the
    checks of its method. *)
Definition command_bytes (c : public_call) (ch : Z) : option (list Z) :=
  match c with
  | CallMove position _ speed _ =>
      match position, speed with
      | VInt p, VInt s =>
          if py_in position (range 10) && py_in speed (range 8)
          then Some [Z.shiftl ch 7 + Z.shiftl s 4 + p]
          else None
      | _, _ => None
      end
  | CallChangeShutter state _ _ =>
      if py_eq state (VStr "open") || py_eq state (VInt 1)
      then Some [128 + 32 + Z.shiftl ch 4 + 8 + 2]
      else if py_eq state (VStr "closed") || py_eq state (VInt 0)
      then Some [128 + 32 + Z.shiftl ch 4 + 8 + 4]
      else None
  | CallSetShutterMode mode _ _ =>
      if py_eq mode (VStr "fast") then Some [220; ch + 1]
      else if py_eq mode (VStr "soft") then Some [221; ch + 1]
      else None
  end.

Definition block_of (c : public_call) : bool :=
  match c with
  | CallMove _ _ _ block => block
  | CallChangeShutter _ _ block => block
  | CallSetShutterMode _ _ block => block
  end.

Definition with_block (block : bool) (c : public_call) : public_call :=
  match c with
  | CallMove position wheel speed _ => CallMove position wheel speed block
  | CallChangeShutter state shutter _ => CallChangeShutter state shutter block
  | CallSetShutterMode mode shutter _ => CallSetShutterMode mode shutter block
  end.

(** The attributes no command touches. *)
Definition same_channels (self self' : Controller T) : Prop :=
  wheels self' = wheels self
  /\ shutters self' = shutters self
  /\ verbose self' = verbose self
  /\ List.length (wheel_target_positions self') =
     List.length (wheel_target_positions self).

(** A command and its completion in the log: the write, the read of the
    echo, the look at what is left on the port. *)
Definition exchange (cmd : list Z) : list io_event :=
  [EvWrite cmd; EvRead (List.length cmd + 1) (cmd ++ [CR]); EvInWaiting 0].

(** From [self] to [self'] the calls [evs] were made and nothing is left
    pending; the channels are the same. *)
Definition advances (self self' : Controller T) (evs : list io_event)
  : Prop :=
  wheels self' = wheels self
  /\ shutters self' = shutters self
  /\ verbose self' = verbose self
  /\ _pending_cmd self' = None
  /\ io_log self' = io_log self ++ evs.

(** The instance when [parse_configuration] refuses the answer. *)
Definition refused (vb : bool) (t' : T) (resp : list Z) (e : exn)
  : result unit * Controller T :=
  (Raise e, mkController vb t' [] [] None [] [EvWrite [253]; EvReadline resp]).

(** How a public call can raise. *)
Definition raise_case (c : public_call) (self self' : Controller T)
    (e : exn) : Prop :=
  (e = ValueError /\ self' = self)
  \/ e = AssertionError
  \/ (e = IOError /\ exists cmd, _pending_cmd self' = Some cmd)
  \/ (e = IndexError
      /\ (exists position wheel speed block,
            c = CallMove position wheel speed block)
      /\ exists cmd, _pending_cmd self' = Some cmd).

End Calls.

(** ** Devices and sessions of the further runs *)

(** An answer whose third field reports a wheel C. *)
Definition frame_wheel_C : list Z := config_frame "WA-25WB-25WC-25SA-IQSB-IQ".

(** An answer with a byte above 127 among its fields. *)
Definition frame_non_ascii : list Z :=
  [253] ++ encode "10-3WA-25WB-NCWC-NCSA-IQSB-V" ++ [200; CR].

(** An answer whose second field does not carry its tag. *)
Definition frame_bad_tag : list Z := config_frame "WA-25WX-NCWC-NCSA-IQSB-IQ".

(** The device of [init_frame_A]: its configuration, then the echo of each
    command of the first sequence. *)
Definition device_A : Mock :=
  mkMock [] [frame_A; echo [96]; echo [221; 1]; echo [172]].

(** Two wheels, wheel A on its way to 6, and a move of wheel B issued
    without blocking, as in the demonstration at the end of the source. *)
Definition two_wheels : Controller Mock :=
  mkController false (mkMock [102; 13] [echo [225]]) [0; 1] [] (Some [102])
    [6; 0] [EvWrite [102]].

Definition move_B : public_call :=
  CallMove (VInt 1) (VInt 1) (VInt 6) false.

(** A session with both wheels away from 0 and shutter B, closing. *)
Definition session_to_close : Controller Mock :=
  mkController false (mkMock [] [echo [96]; echo [224]; echo [188]])
    [0; 1] [1] None [3; 7] [].

(** Both wheels, wheel A at 6, and a device that will answer the next
    command with two wrong bytes. *)
Definition session_wrong_echo : Controller Mock :=
  mkController false (mkMock [] [[0; 0]]) [0; 1] [] None [6; 0] [].

(** * Properties *)

(** ** Bytes and lists *)

Lemma bytes_eqb_eq (a b : list Z) : bytes_eqb a b = true <-> a = b.
Proof.
  revert b; induction a as [|x a IH]; intros [|y b]; simpl;
    try (split; [discriminate | congruence]); try tauto.
  rewrite andb_true_iff, Z.eqb_eq, IH.
  split; [intros [-> ->]; reflexivity | intros E; inversion E; auto].
Qed.

Lemma bytes_eqb_refl (a : list Z) : bytes_eqb a a = true.
Proof. apply bytes_eqb_eq; reflexivity. Qed.

Lemma bytes_eqb_neq (a b : list Z) : a <> b -> bytes_eqb a b = false.
Proof.
  intros N. destruct (bytes_eqb a b) eqn:E; [|reflexivity].
  apply bytes_eqb_eq in E. contradiction.
Qed.

Lemma small_cases (z n : Z) :
  0 <= z < n -> exists k, (k < Z.to_nat n)%nat /\ z = Z.of_nat k.
Proof. intros R. exists (Z.to_nat z). lia. Qed.

Ltac enumerate z :=
  match goal with
  | R : 0 <= z <= ?m |- _ =>
      let k := fresh "k" in
      let L := fresh "L" in
      destruct (small_cases z (m + 1) ltac:(lia)) as (k & L & ->);
      clear R; cbv in L;
      repeat (destruct k as [|k]; [clear L | apply le_S_n in L]);
      try solve [inversion L]
  end.

(** In the ranges the adaptor admits, the sum the source computes is the
    bitwise composition of the three fields, and it is a byte. *)
Lemma move_byte_fields (w s p : Z) :
  0 <= w <= 1 -> 0 <= s <= 7 -> 0 <= p <= 9 ->
  Z.shiftl w 7 + Z.shiftl s 4 + p = encode_move w p s
  /\ is_byte (encode_move w p s) = true.
Proof.
  intros Rw Rs Rp. enumerate w; enumerate s; enumerate p.
  all: split; reflexivity.
Qed.

(** ** Channel translation *)

Lemma n2c_other (v : value) :
  v <> VStr "A" -> v <> VStr "B" -> v <> VInt 0 -> v <> VInt 1 ->
  n2c v = Raise ValueError.
Proof.
  intros NA NB N0 N1. destruct v as [z|s|]; [| |reflexivity].
  - unfold n2c, translate; simpl.
    destruct (Z.eqb_spec z 0) as [->|_]; [contradiction|].
    destruct (Z.eqb_spec z 1) as [->|_]; [contradiction|].
    reflexivity.
  - unfold n2c, translate; simpl.
    destruct (String.eqb_spec s "A") as [->|_]; [contradiction|].
    destruct (String.eqb_spec s "B") as [->|_]; [contradiction|].
    reflexivity.
Qed.

(** C9: [n2c] sends "A" to 0 and "B" to 1, returns the channels 0 and 1 as
    they are, and raises [ValueError] on every other input; [c2n] undoes it
    on the two names and [n2c] undoes [c2n] on the two channels. *)
Theorem n2c_c2n_bidirectional :
  n2c (VStr "A") = Ok (VInt 0)
  /\ n2c (VStr "B") = Ok (VInt 1)
  /\ n2c (VInt 0) = Ok (VInt 0)
  /\ n2c (VInt 1) = Ok (VInt 1)
  /\ (forall v : value,
        v <> VStr "A" -> v <> VStr "B" -> v <> VInt 0 -> v <> VInt 1 ->
        n2c v = Raise ValueError)
  /\ (forall name : string,
        name = "A" \/ name = "B" ->
        exists c, n2c (VStr name) = Ok c /\ c2n c = Ok (VStr name))
  /\ (forall i : Z,
        i = 0 \/ i = 1 ->
        exists name, c2n (VInt i) = Ok name /\ n2c name = Ok (VInt i)).
Proof.
  repeat split; try reflexivity.
  - exact n2c_other.
  - intros name [-> | ->]; eexists; split; reflexivity.
  - intros i [-> | ->]; eexists; split; reflexivity.
Qed.

Lemma n2c_c2n_bidirectional_witness :
  n2c VNone = Raise ValueError
  /\ n2c (VInt 2) = Raise ValueError
  /\ n2c (VStr "C") = Raise ValueError
  /\ (exists c, n2c (VStr "B") = Ok c /\ c2n c = Ok (VStr "B"))
  /\ (exists name, c2n (VInt 1) = Ok name /\ n2c name = Ok (VInt 1)).
Proof.
  destruct n2c_c2n_bidirectional as (_ & _ & _ & _ & Other & Names & Chans).
  refine (conj _ (conj _ (conj _ (conj _ _)))).
  - apply Other; discriminate.
  - apply Other; discriminate.
  - apply Other; discriminate.
  - apply Names; right; reflexivity.
  - apply Chans; right; reflexivity.
Defined.

(** A channel that [n2c] accepts is 0 or 1. *)
Lemma n2c_ok (v c : value) : n2c v = Ok c -> c = VInt 0 \/ c = VInt 1.
Proof.
  intros E.
  destruct v as [z|s|]; [| |discriminate].
  - unfold n2c, translate in E; simpl in E.
    destruct (Z.eqb_spec z 0) as [->|_]; [inversion E; auto|].
    destruct (Z.eqb_spec z 1) as [->|_]; [inversion E; auto|].
    discriminate.
  - unfold n2c, translate in E; simpl in E.
    destruct (String.eqb_spec s "A") as [->|_]; [inversion E; auto|].
    destruct (String.eqb_spec s "B") as [->|_]; [inversion E; auto|].
    discriminate.
Qed.

(** ** Completion of the pending command *)

Section Finish.

Context {T : Type} `{Transport T}.

Lemma finish_none (self : Controller T) :
  _pending_cmd self = None -> _finish_moving self = (Ok tt, self).
Proof. intros E. unfold _finish_moving, bind, gets. rewrite E. reflexivity. Qed.

Lemma finish_some (self : Controller T) (p resp : list Z) (t' : T) :
  _pending_cmd self = Some p ->
  port_read (List.length p + 1) (port self) = (resp, t') ->
  _finish_moving self =
    if bytes_eqb resp (echo p) then
      (if (port_in_waiting t' =? 0)%nat then Ok tt else Raise AssertionError,
       mkController (verbose self) t' (wheels self) (shutters self) None
         (wheel_target_positions self)
         (io_log self ++ [EvRead (List.length p + 1) resp;
                          EvInWaiting (port_in_waiting t')]))
    else
      (Raise IOError,
       mkController (verbose self) t' (wheels self) (shutters self) (Some p)
         (wheel_target_positions self)
         (io_log self ++ [EvRead (List.length p + 1) resp])).
Proof.
  intros E R. unfold _finish_moving, bind, gets, read. rewrite E, R.
  unfold echo. destruct (bytes_eqb resp (p ++ [CR])); simpl.
  - unfold in_waiting, assert, io; simpl. rewrite <- app_assoc; simpl.
    destruct (port_in_waiting t' =? 0)%nat; reflexivity.
  - unfold raise, io. rewrite E. reflexivity.
Qed.

Lemma finish_if_pending_none (self : Controller T) :
  _pending_cmd self = None -> finish_if_pending self = (Ok tt, self).
Proof. intros E. unfold finish_if_pending, bind, gets. rewrite E. reflexivity. Qed.

Lemma finish_if_pending_some (self : Controller T) (p : list Z) :
  _pending_cmd self = Some p -> finish_if_pending self = _finish_moving self.
Proof. intros E. unfold finish_if_pending, bind, gets. rewrite E. reflexivity. Qed.

(** C8: [_finish_moving] with nothing pending returns at once, the
    instance untouched and the port not read.  With a command pending it
    reads one more byte than the command has; a reply other than the
    command followed by a carriage return raises [IOError]; the right
    reply clears the pending command, after which bytes still waiting on
    the port raise [AssertionError]. *)
Theorem finish_moving_spec (self : Controller T) :
  (_pending_cmd self = None -> _finish_moving self = (Ok tt, self))
  /\ (forall (p resp : list Z) (t' : T),
        _pending_cmd self = Some p ->
        port_read (List.length p + 1) (port self) = (resp, t') ->
        exists r self',
          _finish_moving self = (r, self')
          /\ port self' = t'
          /\ (r = Ok tt <->
              resp = p ++ [CR] /\ port_in_waiting t' = 0%nat)
          /\ (resp <> p ++ [CR] ->
              r = Raise IOError
              /\ _pending_cmd self' = Some p
              /\ io_log self' =
                 io_log self ++ [EvRead (List.length p + 1) resp])
          /\ (resp = p ++ [CR] ->
              _pending_cmd self' = None
              /\ io_log self' =
                 io_log self ++ [EvRead (List.length p + 1) resp;
                                 EvInWaiting (port_in_waiting t')]
              /\ (port_in_waiting t' <> 0%nat -> r = Raise AssertionError))).
Proof.
  split; [apply finish_none|].
  intros p resp t' E R. rewrite (finish_some self p resp t' E R).
  unfold echo. destruct (bytes_eqb resp (p ++ [CR])) eqn:B.
  - apply bytes_eqb_eq in B.
    destruct (Nat.eqb_spec (port_in_waiting t') 0) as [Z0|NZ].
    + do 2 eexists; split; [reflexivity|]; simpl.
      repeat split; auto; try contradiction.
    + do 2 eexists; split; [reflexivity|]; simpl.
      repeat split; auto; try contradiction; try discriminate.
      intros [_ Z0]; contradiction.
  - assert (N : resp <> p ++ [CR]).
    { intros ->. rewrite bytes_eqb_refl in B. discriminate. }
    do 2 eexists; split; [reflexivity|]; simpl.
    repeat split; auto; try contradiction; try discriminate.
    intros [E' _]; contradiction.
Qed.

End Finish.

(** ** Membership tests *)

Lemma py_in_ints (w : Z) (ws : list Z) :
  py_in (VInt w) (map VInt ws) = true <-> In w ws.
Proof.
  unfold py_in. rewrite existsb_exists. split.
  - intros (v & I & E). apply in_map_iff in I as (z & <- & I).
    simpl in E. apply Z.eqb_eq in E. subst; exact I.
  - intros I. exists (VInt w). split; [apply in_map; exact I|].
    simpl. apply Z.eqb_refl.
Qed.

Lemma py_in_range (v : value) (n : nat) :
  py_in v (range n) = true <-> exists z, v = VInt z /\ 0 <= z < Z.of_nat n.
Proof.
  unfold py_in, range. rewrite existsb_exists. split.
  - intros (x & I & E). apply in_map_iff in I as (k & <- & I).
    apply in_seq in I. destruct v as [z| |]; try discriminate.
    simpl in E. apply Z.eqb_eq in E. exists z. split; [reflexivity|lia].
  - intros (z & -> & R). exists (VInt z). split; [|simpl; apply Z.eqb_refl].
    apply in_map_iff. exists (Z.to_nat z). split; [f_equal; lia|].
    apply in_seq. lia.
Qed.

(** ** Traces *)

(** Unfolds the monad in [E]. *)
Ltac unfold_monad E :=
  unfold set_pending_cmd, set_wheel_target_positions, set_wheels,
    set_shutters, write, when, assert in E;
  unfold bind, lift, gets, ret, raise, modify, io in E;
  cbv beta iota in E.

(** Splits [E] on the innermost test it is stuck on, until it is an
    equation between two outcomes. *)
Ltac crunch E :=
  repeat (cbv beta iota in E;
          match type of E with
          | context [match ?x with _ => _ end] =>
              lazymatch x with
              | context [match _ with _ => _ end] => fail
              | _ => destruct x eqn:?
              end
          end).

Section Traces.

Context {T : Type} `{Transport T}.

(** The attributes a completion leaves alone, and what it adds to the
    log. *)
Lemma finish_frame (self self' : Controller T) (r : result unit) :
  _finish_moving self = (r, self') ->
  verbose self' = verbose self
  /\ wheels self' = wheels self
  /\ shutters self' = shutters self
  /\ wheel_target_positions self' = wheel_target_positions self
  /\ exists evs, io_log self' = io_log self ++ evs /\ no_write evs = true.
Proof.
  intros E. destruct (_pending_cmd self) as [p|] eqn:P.
  - destruct (port_read (List.length p + 1) (port self)) as [resp t'] eqn:R.
    rewrite (finish_some self p resp t' P R) in E.
    destruct (bytes_eqb resp (echo p)); inversion E; subst; simpl;
      repeat split; eexists; split; reflexivity.
  - rewrite (finish_none self P) in E. inversion E; subst.
    repeat split. exists []. rewrite app_nil_r. split; reflexivity.
Qed.

Lemma adds_nothing (self : Controller T) (p : list Z) :
  adds self self (serialized p).
Proof. exists []. rewrite app_nil_r. split; [reflexivity|left; reflexivity]. Qed.

End Traces.

(** Closes a goal [adds self self' (serialized p)] from the equation [E]
    that gives the outcome of the call. *)
Ltac close_trace E :=
  unfold adds, serialized;
  cbn [verbose port wheels shutters _pending_cmd wheel_target_positions
       io_log] in E;
  first
    [ apply finish_frame in E as (_ & _ & _ & _ & ? & E & ?);
      cbn [io_log] in E; rewrite E
    | inversion E; subst; cbn [io_log] ];
  rewrite <- ?app_assoc; cbn [app];
  eexists; split; [reflexivity|];
  first [ left; reflexivity
        | right; do 2 eexists; split; [reflexivity|];
          first [assumption | reflexivity] ].

(** Runs the completion that opens a call made while [p] is pending. *)
Ltac open_with_finish E P :=
  match type of P with
  | _pending_cmd ?self = Some ?p =>
      let resp := fresh "resp" in
      let t' := fresh "t'" in
      let R := fresh "R" in
      let B := fresh "B" in
      let Z0 := fresh "Z0" in
      rewrite (finish_if_pending_some self p P) in E;
      destruct (port_read (List.length p + 1) (port self))
        as [resp t'] eqn:R;
      rewrite (finish_some self p resp t' P R) in E;
      destruct (bytes_eqb resp (echo p)) eqn:B;
      [ apply bytes_eqb_eq in B; unfold echo in B; subst resp;
        destruct (Nat.eqb_spec (port_in_waiting t') 0) as [Z0|Z0];
        [ rewrite Z0 in E | ]
      | ]
  end.

Section Serialization.

Context {T : Type} `{Transport T}.

Lemma move_serialized (self self' : Controller T)
    (position wheel speed : value) (block : bool) (p : list Z)
    (r : result unit) :
  _pending_cmd self = Some p ->
  move position wheel speed block self = (r, self') ->
  adds self self' (serialized p).
Proof.
  intros P E. unfold move in E. unfold_monad E.
  destruct (n2c wheel) as [c|e] eqn:N;
    [|inversion E; subst; apply adds_nothing].
  destruct (py_in c (map VInt (wheels self))) eqn:W;
    [|inversion E; subst; apply adds_nothing].
  open_with_finish E P; crunch E; close_trace E.
Qed.

Lemma change_shutter_serialized (self self' : Controller T)
    (state shutter : value) (block : bool) (p : list Z)
    (r : result unit) :
  _pending_cmd self = Some p ->
  change_shutter state shutter block self = (r, self') ->
  adds self self' (serialized p).
Proof.
  intros P E. unfold change_shutter in E. unfold_monad E.
  destruct (n2c shutter) as [c|e] eqn:N;
    [|inversion E; subst; apply adds_nothing].
  destruct (py_in c (map VInt (shutters self))) eqn:W;
    [|inversion E; subst; apply adds_nothing].
  destruct (py_in state [VStr "closed"; VStr "open"; VInt 0; VInt 1])
    eqn:S; [|inversion E; subst; apply adds_nothing].
  open_with_finish E P; crunch E; close_trace E.
Qed.

Lemma set_shutter_mode_serialized (self self' : Controller T)
    (mode shutter : value) (block : bool) (p : list Z)
    (r : result unit) :
  _pending_cmd self = Some p ->
  set_shutter_mode mode shutter block self = (r, self') ->
  adds self self' (serialized p).
Proof.
  intros P E. unfold set_shutter_mode in E. unfold_monad E.
  destruct (n2c shutter) as [c|e] eqn:N;
    [|inversion E; subst; apply adds_nothing].
  destruct (py_in c (map VInt (shutters self))) eqn:W;
    [|inversion E; subst; apply adds_nothing].
  destruct (py_in mode [VStr "fast"; VStr "soft"])
    eqn:S; [|inversion E; subst; apply adds_nothing].
  open_with_finish E P; crunch E; close_trace E.
Qed.

(** A public call made while [p] is pending writes nothing before it has
    read [p]'s echo and found the port empty, and then writes once. *)
Lemma calls_serialized (c : public_call) (self self' : Controller T)
    (p : list Z) (r : result unit) :
  _pending_cmd self = Some p ->
  run_call c self = (r, self') ->
  adds self self' (serialized p).
Proof.
  intros P E. destruct c; simpl in E.
  - exact (move_serialized _ _ _ _ _ _ _ _ P E).
  - exact (change_shutter_serialized _ _ _ _ _ _ _ P E).
  - exact (set_shutter_mode_serialized _ _ _ _ _ _ _ P E).
Qed.

End Serialization.

(** ** The move command *)

Section Move.

Context {T : Type} `{Transport T}.

(** A valid move issued with nothing pending, step by step. *)
Lemma move_issue (self : Controller T) (wheel : value) (w p s : Z)
    (block : bool) :
  n2c wheel = Ok (VInt w) -> In w (wheels self) ->
  0 <= p <= 9 -> 0 <= s <= 7 -> _pending_cmd self = None ->
  move (VInt p) wheel (VInt s) block self =
    match list_setitem (wheel_target_positions self) w p with
    | Raise e => (Raise e, issued [encode_move w p s] self)
    | Ok ps =>
        when block _finish_moving
          (with_targets ps (issued [encode_move w p s] self))
    end.
Proof.
  intros N W Rp Rs P.
  assert (Rw : 0 <= w <= 1).
  { destruct (n2c_ok _ _ N) as [E|E]; inversion E; lia. }
  destruct (move_byte_fields w s p Rw Rs Rp) as [Sum Byte].
  unfold move, bind at 1. unfold lift at 1. rewrite N.
  unfold bind at 1, gets at 1. unfold bind at 1.
  rewrite (proj2 (py_in_ints w (wheels self)) W). unfold assert at 1, ret at 1.
  unfold bind at 1. rewrite (finish_if_pending_none self P).
  unfold bind at 1.
  assert (Ip : py_in (VInt p) (range 10) = true).
  { apply py_in_range. exists p. split; [reflexivity|simpl; lia]. }
  assert (Is : py_in (VInt s) (range 8) = true).
  { apply py_in_range. exists s. split; [reflexivity|simpl; lia]. }
  rewrite Ip. unfold assert at 1, ret at 1.
  unfold bind at 1. rewrite Is. unfold assert at 1, ret at 1.
  unfold bind, lift, as_int, bytes, forallb.
  rewrite Sum, Byte. cbn [andb].
  unfold write, set_pending_cmd, gets, modify, set_wheel_target_positions, io;
    cbn [verbose port wheels shutters _pending_cmd wheel_target_positions
         io_log].
  unfold issued, with_targets.
  destruct (list_setitem (wheel_target_positions self) w p); reflexivity.
Qed.

Lemma list_setitem_ok (l : list Z) (i v : Z) :
  0 <= i < Z.of_nat (List.length l) ->
  list_setitem l i v =
    Ok (firstn (Z.to_nat i) l ++ v :: skipn (S (Z.to_nat i)) l).
Proof.
  intros R. unfold list_setitem.
  destruct (Z.leb_spec 0 i); [|lia].
  destruct (Z.ltb_spec i (Z.of_nat (List.length l))); [|lia].
  reflexivity.
Qed.

(** C6: a move on channel [w] to position [p] at speed [s], issued with
    nothing pending, writes the one byte [(w << 7) | (s << 4) | p] and
    records it as the pending command; when it blocks it then reads two
    bytes and succeeds exactly when they are that byte and a carriage
    return, with nothing left on the port. *)
Theorem move_writes_encoded_byte (self : Controller T) (wheel : value)
    (w p s : Z) :
  n2c wheel = Ok (VInt w) -> In w (wheels self) ->
  0 <= p <= 9 -> 0 <= s <= 7 -> _pending_cmd self = None ->
  let b := Z.lor (Z.lor (Z.shiftl w 7) (Z.shiftl s 4)) p in
  (exists r self',
     move (VInt p) wheel (VInt s) false self = (r, self')
     /\ io_log self' = io_log self ++ [EvWrite [b]]
     /\ port self' = port_write [b] (port self)
     /\ _pending_cmd self' = Some [b])
  /\ (0 <= w < Z.of_nat (List.length (wheel_target_positions self)) ->
      forall (resp : list Z) (t' : T),
        port_read 2 (port_write [b] (port self)) = (resp, t') ->
        exists r self' rest,
          move (VInt p) wheel (VInt s) true self = (r, self')
          /\ io_log self' =
             io_log self ++ EvWrite [b] :: EvRead 2 resp :: rest
          /\ no_write rest = true
          /\ (r = Ok tt <->
              resp = [b; CR] /\ port_in_waiting t' = 0%nat)).
Proof.
  intros N W Rp Rs P b. fold (encode_move w p s) in b.
  split.
  - rewrite (move_issue self wheel w p s false N W Rp Rs P).
    fold b. destruct (list_setitem (wheel_target_positions self) w p);
      do 2 eexists; (split; [reflexivity|]); simpl; auto.
  - intros Rw resp t' R.
    rewrite (move_issue self wheel w p s true N W Rp Rs P).
    rewrite (list_setitem_ok _ _ _ Rw). fold b. unfold when.
    set (ps := firstn (Z.to_nat w) (wheel_target_positions self) ++ _).
    rewrite (finish_some (with_targets ps (issued [b] self)) [b] resp t'
               eq_refl R).
    unfold echo. cbn [app].
    destruct (bytes_eqb resp [b; CR]) eqn:B.
    + apply bytes_eqb_eq in B.
      destruct (Nat.eqb_spec (port_in_waiting t') 0) as [Z0|NZ].
      * do 3 eexists. split; [reflexivity|]. cbn [io_log with_targets issued].
        rewrite <- app_assoc. cbn [app]. repeat split; auto.
      * do 3 eexists. split; [reflexivity|]. cbn [io_log with_targets issued].
        rewrite <- app_assoc. cbn [app]. repeat split; auto;
          try discriminate. intros [_ Z0]; contradiction.
    + assert (NE : resp <> [b; CR]).
      { intros ->. rewrite bytes_eqb_refl in B. discriminate. }
      do 3 eexists. split; [reflexivity|]. cbn [io_log with_targets issued].
      rewrite <- app_assoc. cbn [app]. repeat split; auto;
        try discriminate. intros [E _]; contradiction.
Qed.

End Move.

(** ** Shutter commands *)

Lemma shutter_state_other (state : value) :
  state <> VStr "closed" -> state <> VStr "open" ->
  state <> VInt 0 -> state <> VInt 1 ->
  py_in state [VStr "closed"; VStr "open"; VInt 0; VInt 1] = false.
Proof.
  intros NC NO N0 N1. destruct state as [z|s|]; [| |reflexivity]; simpl.
  - destruct (Z.eqb_spec z 0) as [->|_]; [contradiction|].
    destruct (Z.eqb_spec z 1) as [->|_]; [contradiction|].
    reflexivity.
  - destruct (String.eqb_spec s "closed") as [->|_]; [contradiction|].
    destruct (String.eqb_spec s "open") as [->|_]; [contradiction|].
    reflexivity.
Qed.

Lemma shutter_mode_other (mode : value) :
  mode <> VStr "fast" -> mode <> VStr "soft" ->
  py_in mode [VStr "fast"; VStr "soft"] = false.
Proof.
  intros NF NS. destruct mode as [z|s|]; try reflexivity; simpl.
  destruct (String.eqb_spec s "fast") as [->|_]; [contradiction|].
  destruct (String.eqb_spec s "soft") as [->|_]; [contradiction|].
  reflexivity.
Qed.

Section Shutter.

Context {T : Type} `{Transport T}.

Lemma change_shutter_issue (self : Controller T) (state shutter : value)
    (ch : Z) (open : bool) :
  n2c shutter = Ok (VInt ch) -> In ch (shutters self) ->
  _pending_cmd self = None ->
  state = (if open then VStr "open" else VStr "closed") ->
  change_shutter state shutter false self =
    (Ok tt, issued [encode_shutter_state ch open] self).
Proof.
  intros N I P ->. unfold change_shutter.
  unfold bind at 1. unfold lift at 1. rewrite N.
  unfold bind at 1, gets at 1. unfold bind at 1.
  rewrite (proj2 (py_in_ints ch (shutters self)) I).
  unfold assert at 1, ret at 1.
  unfold bind at 1.
  replace (py_in (if open then VStr "open" else VStr "closed")
             [VStr "closed"; VStr "open"; VInt 0; VInt 1]) with true
    by (destruct open; reflexivity).
  unfold assert at 1, ret at 1.
  unfold bind at 1. rewrite (finish_if_pending_none self P).
  destruct (n2c_ok _ _ N) as [E|E]; inversion E; subst ch;
    destruct open; reflexivity.
Qed.

(** A shutter call with a bad argument raises and leaves the instance as
    it was: nothing is read or written, whatever is pending. *)
Lemma change_shutter_rejects (self : Controller T) (state shutter : value)
    (block : bool) :
  py_in state [VStr "closed"; VStr "open"; VInt 0; VInt 1] = false ->
  exists e, change_shutter state shutter block self = (Raise e, self).
Proof.
  intros S. unfold change_shutter, bind, lift, gets, assert, ret, raise.
  destruct (n2c shutter) as [c|e]; [|eexists; reflexivity].
  destruct (py_in c (map VInt (shutters self))); [|eexists; reflexivity].
  rewrite S. eexists; reflexivity.
Qed.

Lemma change_shutter_rejects_channel (self : Controller T)
    (state shutter : value) (block : bool) :
  (forall ch, n2c shutter = Ok (VInt ch) -> ~ In ch (shutters self)) ->
  exists e, change_shutter state shutter block self = (Raise e, self).
Proof.
  intros Bad. unfold change_shutter, bind, lift, gets, assert, ret, raise.
  destruct (n2c shutter) as [c|e] eqn:N; [|eexists; reflexivity].
  destruct (n2c_ok _ _ N) as [-> | ->].
  - destruct (py_in (VInt 0) (map VInt (shutters self))) eqn:I;
      [|eexists; reflexivity].
    apply py_in_ints in I. destruct (Bad 0 eq_refl I).
  - destruct (py_in (VInt 1) (map VInt (shutters self))) eqn:I;
      [|eexists; reflexivity].
    apply py_in_ints in I. destruct (Bad 1 eq_refl I).
Qed.

Lemma set_shutter_mode_rejects (self : Controller T) (mode shutter : value)
    (block : bool) :
  py_in mode [VStr "fast"; VStr "soft"] = false ->
  exists e, set_shutter_mode mode shutter block self = (Raise e, self).
Proof.
  intros S. unfold set_shutter_mode, bind, lift, gets, assert, ret, raise.
  destruct (n2c shutter) as [c|e]; [|eexists; reflexivity].
  destruct (py_in c (map VInt (shutters self))); [|eexists; reflexivity].
  rewrite S. eexists; reflexivity.
Qed.

Lemma set_shutter_mode_rejects_channel (self : Controller T)
    (mode shutter : value) (block : bool) :
  (forall ch, n2c shutter = Ok (VInt ch) -> ~ In ch (shutters self)) ->
  exists e, set_shutter_mode mode shutter block self = (Raise e, self).
Proof.
  intros Bad. unfold set_shutter_mode, bind, lift, gets, assert, ret, raise.
  destruct (n2c shutter) as [c|e] eqn:N; [|eexists; reflexivity].
  destruct (n2c_ok _ _ N) as [-> | ->].
  - destruct (py_in (VInt 0) (map VInt (shutters self))) eqn:I;
      [|eexists; reflexivity].
    apply py_in_ints in I. destruct (Bad 0 eq_refl I).
  - destruct (py_in (VInt 1) (map VInt (shutters self))) eqn:I;
      [|eexists; reflexivity].
    apply py_in_ints in I. destruct (Bad 1 eq_refl I).
Qed.

(** A move on a channel that is not a wheel of this controller raises and
    leaves the instance as it was. *)
Lemma move_rejects_channel (self : Controller T)
    (position wheel speed : value) (block : bool) :
  (forall w, n2c wheel = Ok (VInt w) -> ~ In w (wheels self)) ->
  exists e, move position wheel speed block self = (Raise e, self).
Proof.
  intros Bad. unfold move, bind, lift, gets, assert, ret, raise.
  destruct (n2c wheel) as [c|e] eqn:N; [|eexists; reflexivity].
  destruct (n2c_ok _ _ N) as [-> | ->].
  - destruct (py_in (VInt 0) (map VInt (wheels self))) eqn:I;
      [|eexists; reflexivity].
    apply py_in_ints in I. destruct (Bad 0 eq_refl I).
  - destruct (py_in (VInt 1) (map VInt (wheels self))) eqn:I;
      [|eexists; reflexivity].
    apply py_in_ints in I. destruct (Bad 1 eq_refl I).
Qed.

(** C10: [change_shutter] treats the state 0 as "closed" and the state 1
    as "open"; on a shutter of the controller, with nothing pending, the
    byte written is 128+32+8 plus the channel shifted by 4, plus 4 to
    close and 2 to open; any state other than these four raises before
    the port is touched, the instance unchanged. *)
Theorem change_shutter_numeric_states
    (self : Controller T) (shutter : value) (block : bool) :
  change_shutter (VInt 0) shutter block self =
    change_shutter (VStr "closed") shutter block self
  /\ change_shutter (VInt 1) shutter block self =
       change_shutter (VStr "open") shutter block self
  /\ (forall ch : Z,
        n2c shutter = Ok (VInt ch) -> In ch (shutters self) ->
        _pending_cmd self = None ->
        let base := 128 + 32 + 8 + Z.shiftl ch 4 in
        change_shutter (VInt 0) shutter false self =
          (Ok tt, issued [base + 4] self)
        /\ change_shutter (VInt 1) shutter false self =
             (Ok tt, issued [base + 2] self))
  /\ (forall state : value,
        state <> VStr "closed" -> state <> VStr "open" ->
        state <> VInt 0 -> state <> VInt 1 ->
        exists e,
          change_shutter state shutter block self = (Raise e, self)).
Proof.
  assert (E0 : change_shutter (VInt 0) shutter block self =
               change_shutter (VStr "closed") shutter block self)
    by reflexivity.
  assert (E1 : change_shutter (VInt 1) shutter block self =
               change_shutter (VStr "open") shutter block self)
    by reflexivity.
  refine (conj E0 (conj E1 (conj _ _))).
  - intros ch N I P base. split.
    + change (change_shutter (VInt 0) shutter false self)
        with (change_shutter (VStr "closed") shutter false self).
      exact (change_shutter_issue self _ shutter ch false N I P eq_refl).
    + change (change_shutter (VInt 1) shutter false self)
        with (change_shutter (VStr "open") shutter false self).
      exact (change_shutter_issue self _ shutter ch true N I P eq_refl).
  - intros state NC NO N0 N1. apply change_shutter_rejects.
    apply shutter_state_other; assumption.
Qed.

End Shutter.

(** ** Configuration *)

Section Configuration.

Context {T : Type} `{Transport T}.

Lemma resolve_configuration_read (t t' : T) (vb : bool) (resp : list Z) :
  port_readline (port_write [253] t) = (resp, t') ->
  resolve_configuration (new_instance t vb) =
    parse_configuration resp
      (mkController vb t' [] [] None [] [EvWrite [253]; EvReadline resp]).
Proof.
  intros R. unfold resolve_configuration.
  unfold bind at 1. unfold write at 1.
  unfold bind at 1. unfold readline at 1.
  unfold new_instance, io at 1.
  cbn [verbose port wheels shutters _pending_cmd wheel_target_positions
       io_log].
  rewrite R. reflexivity.
Qed.

(** C7: a configuration answer of any length other than 31, the 36 bytes
    of a controller with a shutter C among them, is rejected by an
    assertion before anything of it is read: [__init__] raises with no
    channel recorded and no further use of the port. *)
Theorem configuration_length_checked (t t' : T) (vb : bool)
    (resp : list Z) :
  port_readline (port_write [253] t) = (resp, t') ->
  (List.length resp = 36%nat ->
     __init__ t vb =
       (Raise AssertionError,
        mkController vb t' [] [] None []
          [EvWrite [253]; EvReadline resp]))
  /\ (List.length resp <> 31%nat ->
        __init__ t vb =
          (Raise AssertionError,
           mkController vb t' [] [] None []
             [EvWrite [253]; EvReadline resp])).
Proof.
  intros R.
  assert (L : List.length resp <> 31%nat ->
              __init__ t vb =
                (Raise AssertionError,
                 mkController vb t' [] [] None []
                   [EvWrite [253]; EvReadline resp])).
  { intros N. unfold __init__, init_body. unfold bind at 1.
    rewrite (resolve_configuration_read t t' vb resp R).
    unfold parse_configuration. unfold bind at 1.
    destruct (List.length resp =? 36)%nat; [reflexivity|].
    unfold negb, assert at 1, ret at 1. unfold bind at 1.
    destruct (Nat.eqb_spec (List.length resp) 31); [contradiction|].
    reflexivity. }
  split; [|exact L].
  intros E. apply L. rewrite E. discriminate.
Qed.

Lemma bind_raises {A B} (m : M T A) (k : A -> M T B)
    (self : Controller T) (e : exn) :
  fst (m self) = Raise e -> fst (bind m k self) = Raise e.
Proof.
  unfold bind. destruct (m self) as [[a|e'] s']; simpl; congruence.
Qed.

(** The shutter fields of a frame that passes every earlier check. *)
Lemma shutter_fields_checked (t t' : T) (vb : bool)
    (resp : list Z) (config_s : string) :
  port_readline (port_write [253] t) = (resp, t') ->
  List.length resp = 31%nat ->
  decode_ascii (skipn 5 resp) = Ok config_s ->
  slice 10 15 config_s = "WC-NC" ->
  slice 0 3 (slice 0 5 config_s) = "WA-" ->
  slice 0 3 (slice 5 10 config_s) = "WB-" ->
  slice 0 3 (slice 15 20 config_s) = "SA-" ->
  slice 0 3 (slice 20 25 config_s) = "SB-" ->
  (slice_from 3 (slice 0 5 config_s) = "25"
   \/ slice_from 3 (slice 0 5 config_s) = "NC") ->
  (slice_from 3 (slice 5 10 config_s) = "25"
   \/ slice_from 3 (slice 5 10 config_s) = "NC") ->
  let sa := slice_from 3 (slice 15 20 config_s) in
  let sb := slice_from 3 (slice 20 25 config_s) in
  fst (resolve_configuration (new_instance t vb)) = Raise AssertionError
  <-> ~ ((sa = "IQ" \/ sa = "VS") /\ (sb = "IQ" \/ sb = "VS")).
Proof.
  intros R L D Hwc Hwa Hwb Hsa Hsb Ha Hb sa sb.
  rewrite (resolve_configuration_read t t' vb resp R).
  assert (Ba : String.eqb (slice_from 3 (slice 0 5 config_s)) "25"
               || String.eqb (slice_from 3 (slice 0 5 config_s)) "NC" = true)
    by (destruct Ha as [-> | ->]; reflexivity).
  assert (Bb : String.eqb (slice_from 3 (slice 5 10 config_s)) "25"
               || String.eqb (slice_from 3 (slice 5 10 config_s)) "NC" = true)
    by (destruct Hb as [-> | ->]; reflexivity).
  destruct (parse_configuration _ _) as [r s'] eqn:E.
  unfold parse_configuration in E.
  rewrite L, D in E. unfold_monad E. cbn [Nat.eqb negb for_each] in E.
  unfold_monad E.
  rewrite Hwc, Hwa, Hwb, Hsa, Hsb, Ba, Bb in E.
  rewrite !String.eqb_refl in E. cbn [andb] in E. cbv beta iota in E.
  fold sa sb in E.
  set (ba := (String.eqb sa "IQ" || String.eqb sa "VS")%bool) in E.
  set (bb := (String.eqb sb "IQ" || String.eqb sb "VS")%bool) in E.
  assert (Pa : ba = true <-> (sa = "IQ" \/ sa = "VS")).
  { unfold ba. rewrite orb_true_iff, !String.eqb_eq. tauto. }
  assert (Pb : bb = true <-> (sb = "IQ" \/ sb = "VS")).
  { unfold bb. rewrite orb_true_iff, !String.eqb_eq. tauto. }
  destruct ba; [destruct bb|]; cbv beta iota in E.
  - split.
    + intros X. exfalso.
      repeat (cbv beta iota in E;
              cbn [verbose port wheels shutters _pending_cmd
                   wheel_target_positions io_log app map List.length
                   Nat.eqb Nat.ltb Nat.leb andb orb] in E;
              match type of E with
              | context [comprehension c2n ?l] =>
                  let x := eval vm_compute in (comprehension c2n l) in
                  progress change (comprehension c2n l) with x in E
              | context [match ?x with _ => _ end] =>
                  lazymatch x with
                  | context [match _ with _ => _ end] => fail
                  | _ => destruct x eqn:?
                  end
              end).
      all: inversion E; subst; discriminate X.
    + intros N. exfalso. apply N. split; [apply Pa|apply Pb]; reflexivity.
  - inversion E; subst. split; [|reflexivity].
    intros _ [_ B]. apply Pb in B. discriminate B.
  - inversion E; subst. split; [|reflexivity].
    intros _ [A _]. apply Pa in A. discriminate A.
Qed.

(** C2, as the code has it: of a frame that passes the checks before
    them, the two shutter fields are accepted exactly when each reads
    "IQ" or "VS"; any other sub-type fails the assertion, and "NC" in
    either field makes [__init__] raise. *)
Theorem shutter_subtype_iq_or_vs (t t' : T) (vb : bool)
    (resp : list Z) (config_s : string) :
  port_readline (port_write [253] t) = (resp, t') ->
  List.length resp = 31%nat ->
  decode_ascii (skipn 5 resp) = Ok config_s ->
  slice 10 15 config_s = "WC-NC" ->
  slice 0 3 (slice 0 5 config_s) = "WA-" ->
  slice 0 3 (slice 5 10 config_s) = "WB-" ->
  slice 0 3 (slice 15 20 config_s) = "SA-" ->
  slice 0 3 (slice 20 25 config_s) = "SB-" ->
  (slice_from 3 (slice 0 5 config_s) = "25"
   \/ slice_from 3 (slice 0 5 config_s) = "NC") ->
  (slice_from 3 (slice 5 10 config_s) = "25"
   \/ slice_from 3 (slice 5 10 config_s) = "NC") ->
  let sa := slice_from 3 (slice 15 20 config_s) in
  let sb := slice_from 3 (slice 20 25 config_s) in
  (fst (resolve_configuration (new_instance t vb)) = Raise AssertionError
   <-> ~ ((sa = "IQ" \/ sa = "VS") /\ (sb = "IQ" \/ sb = "VS")))
  /\ (~ ((sa = "IQ" \/ sa = "VS") /\ (sb = "IQ" \/ sb = "VS")) ->
      fst (__init__ t vb) = Raise AssertionError)
  /\ (sa = "NC" \/ sb = "NC" ->
      fst (__init__ t vb) = Raise AssertionError).
Proof.
  intros R L D Hwc Hwa Hwb Hsa Hsb Ha Hb sa sb.
  pose proof (shutter_fields_checked t t' vb resp config_s
                R L D Hwc Hwa Hwb Hsa Hsb Ha Hb) as Iff.
  cbv zeta in Iff. fold sa sb in Iff.
  assert (Rej : ~ ((sa = "IQ" \/ sa = "VS") /\ (sb = "IQ" \/ sb = "VS")) ->
                fst (__init__ t vb) = Raise AssertionError).
  { intros N. unfold __init__, init_body. apply bind_raises.
    apply Iff. exact N. }
  refine (conj Iff (conj Rej _)).
  intros [E|E]; apply Rej; rewrite E;
    intros [[?|?] [?|?]]; discriminate.
Qed.

(** Without [verbose], the configuration is never refused for want of
    hardware, whatever the controller answers. *)
Lemma quiet_never_reports_missing_hardware (t : T) :
  fst (resolve_configuration (new_instance t false)) <> Raise RuntimeError.
Proof.
  destruct (port_readline (port_write [253] t)) as [resp t'] eqn:R.
  rewrite (resolve_configuration_read t t' false resp R).
  destruct (parse_configuration _ _) as [r s'] eqn:E.
  unfold parse_configuration, decode_ascii in E.
  unfold_monad E. cbn [for_each] in E. unfold_monad E.
  repeat (cbv beta iota in E;
          cbn [verbose port wheels shutters _pending_cmd
               wheel_target_positions io_log app map] in E;
          match type of E with
          | context [comprehension c2n ?l] =>
              let x := eval vm_compute in (comprehension c2n l) in
              progress change (comprehension c2n l) with x in E
          | context [match ?x with _ => _ end] =>
              lazymatch x with
              | context [match _ with _ => _ end] => fail
              | _ => destruct x eqn:?
              end
          end).
  all: inversion E; subst; discriminate.
Qed.

(** When the configuration names no wheel and no SmartShutter and nothing
    was raised, [__init__] has no command to issue and returns. *)
Lemma init_without_channels (t : T) (vb : bool) (self : Controller T) :
  resolve_configuration (new_instance t vb) = (Ok tt, self) ->
  wheels self = [] -> shutters self = [] ->
  __init__ t vb =
    (Ok tt,
     mkController (verbose self) (port self) [] [] None [] (io_log self)).
Proof.
  intros E W S. unfold __init__, init_body. unfold bind at 1. rewrite E.
  unfold home, bind, set_pending_cmd, set_wheel_target_positions, modify,
    gets; cbn [verbose port wheels shutters _pending_cmd
               wheel_target_positions io_log].
  rewrite W, S. reflexivity.
Qed.

End Configuration.

(** ** Bookkeeping of wheel positions, and argument checks of [move] *)

Section Bookkeeping.

Context {T : Type} `{Transport T}.

(** Where the list of target positions has an entry at the channel's
    index, a valid move stores the position there as soon as the command
    is written, blocking or not, and whatever the echo turns out to be. *)
Lemma move_records_target (self self' : Controller T) (wheel : value)
    (w p s : Z) (block : bool) (r : result unit) :
  n2c wheel = Ok (VInt w) -> In w (wheels self) ->
  0 <= p <= 9 -> 0 <= s <= 7 -> _pending_cmd self = None ->
  0 <= w < Z.of_nat (List.length (wheel_target_positions self)) ->
  move (VInt p) wheel (VInt s) block self = (r, self') ->
  nth (Z.to_nat w) (wheel_target_positions self') (-1) = p.
Proof.
  intros N W Rp Rs P Rw E.
  rewrite (move_issue self wheel w p s block N W Rp Rs P) in E.
  rewrite (list_setitem_ok _ _ _ Rw) in E.
  assert (G : nth (Z.to_nat w)
                (firstn (Z.to_nat w) (wheel_target_positions self)
                 ++ p :: skipn (S (Z.to_nat w))
                               (wheel_target_positions self)) (-1) = p).
  { rewrite <- (firstn_length_le (wheel_target_positions self)
                  (n := Z.to_nat w)) at 1 by lia.
    apply nth_middle. }
  destruct block; unfold when in E.
  - apply finish_frame in E as (_ & _ & _ & -> & _). exact G.
  - inversion E; subst. exact G.
Qed.

(** A controller with wheel B alone keeps a one-entry list of targets,
    and the channel of wheel B is 1: the assignment raises, after the
    command is written and before its echo is read. *)
Lemma move_wheel_B_alone (self : Controller T) (wheel : value) (p s : Z)
    (block : bool) :
  n2c wheel = Ok (VInt 1) ->
  wheels self = [1] -> wheel_target_positions self = [0] ->
  0 <= p <= 9 -> 0 <= s <= 7 -> _pending_cmd self = None ->
  move (VInt p) wheel (VInt s) block self =
    (Raise IndexError, issued [encode_move 1 p s] self).
Proof.
  intros N W L Rp Rs P.
  rewrite (move_issue self wheel 1 p s block N) by
    (try rewrite W; simpl; auto).
  rewrite L. reflexivity.
Qed.

(** A move to a position out of range, on a wheel of the controller and
    with [p] pending: the echo of [p] is read and the pending command
    cleared before the position is looked at. *)
Lemma move_bad_position_reads_echo (self : Controller T)
    (position wheel speed : value) (w : Z) (block : bool)
    (p : list Z) (t' : T) :
  n2c wheel = Ok (VInt w) -> In w (wheels self) ->
  py_in position (range 10) = false ->
  _pending_cmd self = Some p ->
  port_read (List.length p + 1) (port self) = (p ++ [CR], t') ->
  port_in_waiting t' = 0%nat ->
  move position wheel speed block self =
    (Raise AssertionError,
     mkController (verbose self) t' (wheels self) (shutters self) None
       (wheel_target_positions self)
       (io_log self ++ [EvRead (List.length p + 1) (p ++ [CR]);
                        EvInWaiting 0])).
Proof.
  intros N W Bad P R Z0. unfold move.
  unfold bind at 1. unfold lift at 1. rewrite N.
  unfold bind at 1, gets at 1. unfold bind at 1.
  rewrite (proj2 (py_in_ints w (wheels self)) W).
  unfold assert at 1, ret at 1.
  unfold bind at 1. rewrite (finish_if_pending_some self p P).
  rewrite (finish_some self p _ t' P R).
  unfold echo. rewrite bytes_eqb_refl, Z0. cbn [Nat.eqb].
  unfold bind at 1. rewrite Bad. reflexivity.
Qed.

(** Whatever is wrong with its arguments, [move] writes nothing. *)
Lemma move_bad_position_no_write (self self' : Controller T)
    (position wheel speed : value) (block : bool) (r : result unit) :
  py_in position (range 10) = false \/ py_in speed (range 8) = false ->
  move position wheel speed block self = (r, self') ->
  exists e evs,
    r = Raise e /\ io_log self' = io_log self ++ evs
    /\ no_write evs = true.
Proof.
  intros Bad E. unfold move in E. unfold_monad E.
  destruct (n2c wheel) as [c|e] eqn:N.
  2:{ inversion E; subst. exists e, []. rewrite app_nil_r. auto. }
  destruct (py_in c (map VInt (wheels self))) eqn:W.
  2:{ inversion E; subst. exists AssertionError, [].
      rewrite app_nil_r. auto. }
  destruct (finish_if_pending self) as [r1 s1] eqn:F.
  assert (F' : exists evs, io_log s1 = io_log self ++ evs
                           /\ no_write evs = true).
  { unfold finish_if_pending, bind, gets in F.
    destruct (_pending_cmd self) eqn:P.
    - apply finish_frame in F. tauto.
    - inversion F; subst. exists []. rewrite app_nil_r. auto. }
  destruct F' as (evs & L & NW).
  destruct r1 as [[]|e].
  2:{ inversion E; subst. exists e, evs. auto. }
  destruct Bad as [Bad|Bad].
  - rewrite Bad in E. inversion E; subst. exists AssertionError, evs. auto.
  - rewrite Bad in E.
    destruct (py_in position (range 10)); inversion E; subst;
      exists AssertionError, evs; auto.
Qed.

End Bookkeeping.

(** * Runs on the scripted port *)

Example init_frame_A :
  __init__ (mkMock [] [frame_A; echo [96]; echo [221; 1]; echo [172]]) false
  = (Ok tt,
     mkController false (mkMock [] []) [0] [0] None [0]
       [EvWrite [253]; EvReadline frame_A;
        EvWrite [96]; EvRead 2 [96; 13]; EvInWaiting 0;
        EvWrite [221; 1]; EvRead 3 [221; 1; 13]; EvInWaiting 0;
        EvWrite [172]; EvRead 2 [172; 13]; EvInWaiting 0]).
Proof. vm_compute. reflexivity. Qed.

(** The example of the specification: wheels {A}, shutters {A}, and
    [move(3, "A", speed=6, block=True)]. *)
Example move_3_A :
  move (VInt 3) (VStr "A") (VInt 6) true
    (session [0] [0] None (mkMock [] [echo [99]]))
  = (Ok tt,
     mkController false (mkMock [] []) [0] [0] None [3]
       [EvWrite [99]; EvRead 2 [99; 13]; EvInWaiting 0]).
Proof. vm_compute. reflexivity. Qed.

Example set_shutter_mode_fast_A :
  set_shutter_mode (VStr "fast") (VStr "A") true
    (session [0] [0] None (mkMock [] [echo [220; 1]]))
  = (Ok tt,
     mkController false (mkMock [] []) [0] [0] None [0]
       [EvWrite [220; 1]; EvRead 3 [220; 1; 13]; EvInWaiting 0]).
Proof. vm_compute. reflexivity. Qed.

Example move_B_not_present :
  move (VInt 3) (VStr "B") (VInt 6) true
    (session [0] [0] None (mkMock [] []))
  = (Raise AssertionError, session [0] [0] None (mkMock [] [])).
Proof. vm_compute. reflexivity. Qed.

(** C1: with neither a wheel nor a SmartShutter found, [__init__] raises
    only when [verbose] is set; without it the instance is returned with
    both channel lists empty. *)
Theorem init_without_hardware :
  List.length frame_nothing = 31%nat
  /\ __init__ (mkMock [] [frame_nothing]) false
     = (Ok tt,
        mkController false (mkMock [] []) [] [] None []
          [EvWrite [253]; EvReadline frame_nothing])
  /\ __init__ (mkMock [] [frame_nothing]) true
     = (Raise RuntimeError,
        mkController true (mkMock [] []) [] [] None []
          [EvWrite [253]; EvReadline frame_nothing]).
Proof. repeat split; vm_compute; reflexivity. Qed.

(** C2, the claim as written fails: a 31-byte frame whose shutter field
    reads "SA-NC" makes [__init__] raise. *)
Lemma shutter_NC_rejected :
  List.length frame_shutter_NC = 31%nat
  /\ slice 15 20 "WA-25WB-NCWC-NCSA-NCSB-IQ" = "SA-NC"
  /\ fst (__init__ (mkMock [] [frame_shutter_NC; echo [96]]) false)
     = Raise AssertionError.
Proof. repeat split; vm_compute; reflexivity. Qed.

Lemma shutter_subtype_iq_or_vs_witness :
  fst (__init__ (mkMock [] [config_frame "WA-25WB-NCWC-NCSA-IQSB-NC"]) true)
  = Raise AssertionError.
Proof.
  refine (proj2 (proj2 (shutter_subtype_iq_or_vs
            (mkMock [] [config_frame "WA-25WB-NCWC-NCSA-IQSB-NC"])
            (mkMock [] []) true
            (config_frame "WA-25WB-NCWC-NCSA-IQSB-NC")
            ("WA-25WB-NCWC-NCSA-IQSB-NC" ++ String "013" EmptyString)%string
            _ _ _ _ _ _ _ _ _ _)) _).
  all: try (vm_compute; reflexivity).
  - left; vm_compute; reflexivity.
  - right; vm_compute; reflexivity.
  - right; vm_compute; reflexivity.
Defined.

(** C3: on a controller with wheel B alone, the list of target positions
    has one entry and channel 1 indexes past it: the first move of
    [__init__] raises [IndexError], and so does any later move on B, with
    the list as it was. *)
Theorem wheel_B_alone_index_error :
  List.length frame_wheel_B = 31%nat
  /\ __init__ (mkMock [] [frame_wheel_B; echo [224]]) false
     = (Raise IndexError,
        mkController false (mkMock [224; 13] []) [1] [] (Some [224]) [0]
          [EvWrite [253]; EvReadline frame_wheel_B; EvWrite [224]])
  /\ move (VInt 5) (VStr "B") (VInt 6) true
       (session [1] [] None (mkMock [] [echo [229]]))
     = (Raise IndexError,
        mkController false (mkMock [229; 13] []) [1] [] (Some [229]) [0]
          [EvWrite [229]]).
Proof. repeat split; vm_compute; reflexivity. Qed.

(** C4: a move to position 10 while the command [96] is pending reads the
    two bytes of its echo and clears the pending command before it raises. *)
Theorem move_out_of_range_reads_pending_echo :
  move (VInt 10) (VStr "A") (VInt 6) true
    (session [0] [0] (Some [96]) (mkMock (echo [96]) []))
  = (Raise AssertionError,
     mkController false (mkMock [] []) [0] [0] None [0]
       [EvRead 2 [96; 13]; EvInWaiting 0]).
Proof. vm_compute. reflexivity. Qed.

Lemma move_writes_encoded_byte_witness :
  exists r self' rest,
    move (VInt 3) (VStr "A") (VInt 6) true
      (session [0] [0] None (mkMock [] [echo [99]])) = (r, self')
    /\ io_log self' = [] ++ EvWrite [99] :: EvRead 2 [99; 13] :: rest
    /\ no_write rest = true
    /\ (r = Ok tt <->
        [99; 13] = [99; CR] /\ port_in_waiting (mkMock [] []) = 0%nat).
Proof.
  refine (proj2 (move_writes_encoded_byte
                   (session [0] [0] None (mkMock [] [echo [99]]))
                   (VStr "A") 0 3 6 _ _ _ _ _) _ [99; 13] (mkMock [] []) _).
  - reflexivity.
  - left; reflexivity.
  - lia.
  - lia.
  - reflexivity.
  - simpl; lia.
  - reflexivity.
Defined.

Lemma configuration_length_checked_witness :
  List.length frame_shutter_C = 36%nat
  /\ __init__ (mkMock [] [frame_shutter_C]) true
     = (Raise AssertionError,
        mkController true (mkMock [] []) [] [] None []
          [EvWrite [253]; EvReadline frame_shutter_C]).
Proof.
  split; [reflexivity|].
  refine (proj1 (configuration_length_checked
                   (mkMock [] [frame_shutter_C]) (mkMock [] []) true
                   frame_shutter_C _) _).
  - vm_compute. reflexivity.
  - reflexivity.
Defined.

Lemma finish_moving_spec_witness :
  _finish_moving (session [0] [0] None (mkMock [] []))
  = (Ok tt, session [0] [0] None (mkMock [] []))
  /\ exists r self',
       _finish_moving (session [0] [0] (Some [99]) (mkMock [99; 13] []))
       = (r, self')
       /\ port self' = mkMock [] []
       /\ (r = Ok tt <->
           [99; 13] = [99] ++ [CR]
           /\ port_in_waiting (mkMock [] []) = 0%nat)
       /\ ([99; 13] <> [99] ++ [CR] ->
           r = Raise IOError
           /\ _pending_cmd self' = Some [99]
           /\ io_log self' = [] ++ [EvRead 2 [99; 13]])
       /\ ([99; 13] = [99] ++ [CR] ->
           _pending_cmd self' = None
           /\ io_log self' = [] ++ [EvRead 2 [99; 13]; EvInWaiting 0]
           /\ (port_in_waiting (mkMock [] []) <> 0%nat ->
               r = Raise AssertionError)).
Proof.
  split.
  - exact (proj1 (finish_moving_spec (session [0] [0] None (mkMock [] [])))
             eq_refl).
  - exact (proj2 (finish_moving_spec
                    (session [0] [0] (Some [99]) (mkMock [99; 13] [])))
             [99] [99; 13] (mkMock [] []) eq_refl eq_refl).
Defined.

Lemma change_shutter_numeric_states_witness :
  (change_shutter (VInt 0) (VStr "B") false
     (session [] [0; 1] None (mkMock [] []))
   = (Ok tt, issued [128 + 32 + 8 + Z.shiftl 1 4 + 4]
               (session [] [0; 1] None (mkMock [] []))))
  /\ exists e,
       change_shutter (VInt 2) (VStr "B") true
         (session [] [0; 1] (Some [172]) (mkMock [] []))
       = (Raise e, session [] [0; 1] (Some [172]) (mkMock [] [])).
Proof.
  split.
  - exact (proj1 (proj1 (proj2 (proj2 (change_shutter_numeric_states
              (session [] [0; 1] None (mkMock [] [])) (VStr "B") false)))
             1 eq_refl (or_intror (or_introl eq_refl)) eq_refl)).
  - refine (proj2 (proj2 (proj2 (change_shutter_numeric_states
              (session [] [0; 1] (Some [172]) (mkMock [] []))
              (VStr "B") true))) (VInt 2) _ _ _ _);
      discriminate.
Defined.


(** * Further properties *)

(** ** Channel names *)

Lemma c2n_other (v : value) :
  v <> VStr "A" -> v <> VStr "B" -> v <> VInt 0 -> v <> VInt 1 ->
  c2n v = Raise ValueError.
Proof.
  intros NA NB N0 N1. destruct v as [z|s|]; [| |reflexivity].
  - unfold c2n, translate; simpl.
    destruct (Z.eqb_spec z 0) as [->|_]; [contradiction|].
    destruct (Z.eqb_spec z 1) as [->|_]; [contradiction|].
    reflexivity.
  - unfold c2n, translate; simpl.
    destruct (String.eqb_spec s "A") as [->|_]; [contradiction|].
    destruct (String.eqb_spec s "B") as [->|_]; [contradiction|].
    reflexivity.
Qed.

Lemma value_eq_dec (a b : value) : {a = b} + {a <> b}.
Proof.
  decide equality; [apply Z.eq_dec | apply string_dec].
Qed.

Lemma channel_id_cases (v : value) :
  v = VStr "A" \/ v = VStr "B" \/ v = VInt 0 \/ v = VInt 1
  \/ (v <> VStr "A" /\ v <> VStr "B" /\ v <> VInt 0 /\ v <> VInt 1).
Proof.
  destruct (value_eq_dec v (VStr "A")); [tauto|].
  destruct (value_eq_dec v (VStr "B")); [tauto|].
  destruct (value_eq_dec v (VInt 0)); [tauto|].
  destruct (value_eq_dec v (VInt 1)); tauto.
Qed.

Lemma n2c_raises (v : value) (e : exn) : n2c v = Raise e -> e = ValueError.
Proof.
  destruct (channel_id_cases v) as [->|[->|[->|[->|(A & B & C & D)]]]];
    try discriminate.
  rewrite (n2c_other v A B C D). congruence.
Qed.

(** X1: [c2n] sends 0 to "A" and 1 to "B", returns the names "A" and "B"
    as they are and raises [ValueError] on every other input; it accepts
    exactly the inputs [n2c] accepts, and each of the two, applied to its
    own result, returns it. *)
Theorem c2n_names_and_channels :
  c2n (VInt 0) = Ok (VStr "A")
  /\ c2n (VInt 1) = Ok (VStr "B")
  /\ c2n (VStr "A") = Ok (VStr "A")
  /\ c2n (VStr "B") = Ok (VStr "B")
  /\ (forall v : value,
        v <> VStr "A" -> v <> VStr "B" -> v <> VInt 0 -> v <> VInt 1 ->
        c2n v = Raise ValueError)
  /\ (forall v : value,
        (exists c, n2c v = Ok c) <-> (exists name, c2n v = Ok name))
  /\ (forall v c : value, n2c v = Ok c -> n2c c = Ok c)
  /\ (forall v name : value, c2n v = Ok name -> c2n name = Ok name).
Proof.
  refine (conj eq_refl (conj eq_refl (conj eq_refl (conj eq_refl
            (conj c2n_other (conj _ (conj _ _))))))).
  - intros v.
    destruct (channel_id_cases v) as [->|[->|[->|[->|(A & B & C & D)]]]];
      try (split; intros _; eexists; reflexivity).
    rewrite (n2c_other v A B C D), (c2n_other v A B C D).
    split; intros [x X]; discriminate.
  - intros v c E.
    destruct (channel_id_cases v) as [->|[->|[->|[->|(A & B & C & D)]]]];
      try (inversion E; subst; reflexivity).
    rewrite (n2c_other v A B C D) in E. discriminate.
  - intros v name E.
    destruct (channel_id_cases v) as [->|[->|[->|[->|(A & B & C & D)]]]];
      try (inversion E; subst; reflexivity).
    rewrite (c2n_other v A B C D) in E. discriminate.
Qed.

Lemma c2n_names_and_channels_witness :
  c2n (VInt 7) = Raise ValueError
  /\ c2n (VStr "a") = Raise ValueError
  /\ n2c (VInt 1) = Ok (VInt 1)
  /\ c2n (VStr "B") = Ok (VStr "B").
Proof.
  destruct c2n_names_and_channels
    as (_ & _ & _ & _ & Other & _ & Idn & Idc).
  refine (conj _ (conj _ (conj _ _))).
  - apply Other; discriminate.
  - apply Other; discriminate.
  - apply (Idn (VStr "B")). reflexivity.
  - apply (Idc (VInt 1)). reflexivity.
Defined.

(** ** Commands issued with nothing pending *)

Section Issue.

Context {T : Type} `{Transport T}.

(** The completion that follows the write of [cmd]. *)
Lemma issue_then_finish (self : Controller T) (cmd resp : list Z) (t' : T) :
  port_read (List.length cmd + 1) (port_write cmd (port self)) = (resp, t') ->
  exists r self' rest,
    _finish_moving (issued cmd self) = (r, self')
    /\ io_log self' =
       io_log self ++ EvWrite cmd :: EvRead (List.length cmd + 1) resp :: rest
    /\ no_write rest = true
    /\ (r = Ok tt <-> resp = cmd ++ [CR] /\ port_in_waiting t' = 0%nat)
    /\ (r = Ok tt ->
        self' = mkController (verbose self) t' (wheels self) (shutters self)
                  None (wheel_target_positions self)
                  (io_log self ++ [EvWrite cmd;
                                   EvRead (List.length cmd + 1) (cmd ++ [CR]);
                                   EvInWaiting 0])).
Proof.
  intros R.
  rewrite (finish_some (issued cmd self) cmd resp t' eq_refl R).
  unfold echo. destruct (bytes_eqb resp (cmd ++ [CR])) eqn:B.
  - apply bytes_eqb_eq in B. subst resp.
    destruct (Nat.eqb_spec (port_in_waiting t') 0) as [Z0|NZ].
    + do 3 eexists. split; [reflexivity|]. cbn [io_log issued verbose wheels
        shutters wheel_target_positions].
      rewrite <- app_assoc. cbn [app]. rewrite Z0.
      repeat split; auto.
    + do 3 eexists. split; [reflexivity|]. cbn [io_log issued].
      rewrite <- app_assoc. cbn [app].
      repeat split; auto; try discriminate. intros [_ Z0]; contradiction.
  - assert (NE : resp <> cmd ++ [CR]).
    { intros ->. rewrite bytes_eqb_refl in B. discriminate. }
    do 3 eexists. split; [reflexivity|]. cbn [io_log issued].
    rewrite <- app_assoc. cbn [app].
    repeat split; auto; try discriminate. intros [E _]; contradiction.
Qed.

Lemma change_shutter_issue_block (self : Controller T)
    (state shutter : value) (ch : Z) (open block : bool) :
  n2c shutter = Ok (VInt ch) -> In ch (shutters self) ->
  _pending_cmd self = None ->
  state = (if open then VStr "open" else VStr "closed") ->
  change_shutter state shutter block self =
    when block _finish_moving (issued [encode_shutter_state ch open] self).
Proof.
  intros N I P ->. unfold change_shutter.
  unfold bind at 1. unfold lift at 1. rewrite N.
  unfold bind at 1, gets at 1. unfold bind at 1.
  rewrite (proj2 (py_in_ints ch (shutters self)) I).
  unfold assert at 1, ret at 1.
  unfold bind at 1.
  replace (py_in (if open then VStr "open" else VStr "closed")
             [VStr "closed"; VStr "open"; VInt 0; VInt 1]) with true
    by (destruct open; reflexivity).
  unfold assert at 1, ret at 1.
  unfold bind at 1. rewrite (finish_if_pending_none self P).
  destruct (n2c_ok _ _ N) as [E|E]; inversion E; subst ch;
    destruct open; reflexivity.
Qed.

Lemma set_shutter_mode_issue (self : Controller T)
    (mode shutter : value) (ch : Z) (fast block : bool) :
  n2c shutter = Ok (VInt ch) -> In ch (shutters self) ->
  _pending_cmd self = None ->
  mode = (if fast then VStr "fast" else VStr "soft") ->
  set_shutter_mode mode shutter block self =
    when block _finish_moving
      (issued [if fast then 220 else 221; ch + 1] self).
Proof.
  intros N I P ->. unfold set_shutter_mode.
  unfold bind at 1. unfold lift at 1. rewrite N.
  unfold bind at 1, gets at 1. unfold bind at 1.
  rewrite (proj2 (py_in_ints ch (shutters self)) I).
  unfold assert at 1, ret at 1.
  unfold bind at 1.
  replace (py_in (if fast then VStr "fast" else VStr "soft")
             [VStr "fast"; VStr "soft"]) with true
    by (destruct fast; reflexivity).
  unfold assert at 1, ret at 1.
  unfold bind at 1. rewrite (finish_if_pending_none self P).
  destruct (n2c_ok _ _ N) as [E|E]; inversion E; subst ch;
    destruct fast; reflexivity.
Qed.

(** X2: on a shutter of the controller, with nothing pending,
    [set_shutter_mode] writes the two bytes 220 ("fast") or 221 ("soft")
    and the channel plus one, and records them as pending; when it blocks
    it then reads three bytes and succeeds exactly when they are these two
    bytes and a carriage return, with nothing left on the port. *)
Theorem set_shutter_mode_writes_opcode (self : Controller T)
    (shutter : value) (ch : Z) (fast : bool) :
  n2c shutter = Ok (VInt ch) -> In ch (shutters self) ->
  _pending_cmd self = None ->
  let mode := if fast then VStr "fast" else VStr "soft" in
  let cmd := [if fast then 220 else 221; ch + 1] in
  set_shutter_mode mode shutter false self =
    (Ok tt,
     mkController (verbose self) (port_write cmd (port self)) (wheels self)
       (shutters self) (Some cmd) (wheel_target_positions self)
       (io_log self ++ [EvWrite cmd]))
  /\ forall (resp : list Z) (t' : T),
       port_read 3 (port_write cmd (port self)) = (resp, t') ->
       exists r self' rest,
         set_shutter_mode mode shutter true self = (r, self')
         /\ io_log self' =
            io_log self ++ EvWrite cmd :: EvRead 3 resp :: rest
         /\ no_write rest = true
         /\ (r = Ok tt <->
             resp = cmd ++ [CR] /\ port_in_waiting t' = 0%nat).
Proof.
  intros N I P mode cmd. split.
  - exact (set_shutter_mode_issue self mode shutter ch fast false N I P
             eq_refl).
  - intros resp t' R.
    rewrite (set_shutter_mode_issue self mode shutter ch fast true N I P
               eq_refl).
    destruct (issue_then_finish self cmd resp t' R)
      as (r & self' & rest & E & L & NW & Iff & _).
    exists r, self', rest. auto.
Qed.

(** X3: [set_shutter_mode] takes the two words only: any other mode, the
    numbers 0 and 1 that [change_shutter] takes for a state among them,
    raises [ValueError] or [AssertionError] with the instance as it was,
    whatever is pending. *)
Theorem set_shutter_mode_words_only (self : Controller T)
    (mode shutter : value) (block : bool) :
  mode <> VStr "fast" -> mode <> VStr "soft" ->
  exists e,
    (e = ValueError \/ e = AssertionError)
    /\ set_shutter_mode mode shutter block self = (Raise e, self).
Proof.
  intros NF NS. pose proof (shutter_mode_other mode NF NS) as S.
  unfold set_shutter_mode, bind, lift, gets, assert, ret, raise.
  destruct (n2c shutter) as [c|e] eqn:N.
  - destruct (py_in c (map VInt (shutters self)));
      [rewrite S|]; exists AssertionError; auto.
  - apply n2c_raises in N. subst e. exists ValueError; auto.
Qed.

(** X4: a call on a channel that is not one of the controller's raises
    with the instance as it was, nothing read and nothing written:
    [ValueError] when the identifier is none of "A", "B", 0, 1, and
    [AssertionError] when it names a channel that was not detected. *)
Theorem absent_channel_rejected (c : public_call) (self : Controller T) :
  (forall e, n2c (channel_of c) = Raise e ->
     run_call c self = (Raise ValueError, self))
  /\ (forall ch, n2c (channel_of c) = Ok (VInt ch) ->
        ~ In ch (channels_for c self) ->
        run_call c self = (Raise AssertionError, self)).
Proof.
  split.
  - intros e N. pose proof (n2c_raises _ _ N); subst e.
    destruct c; simpl in N |- *;
      unfold move, change_shutter, set_shutter_mode, bind, lift;
      rewrite N; reflexivity.
  - intros ch N Abs.
    assert (F : py_in (VInt ch) (map VInt (channels_for c self)) = false).
    { destruct (py_in _ _) eqn:I; [|reflexivity].
      apply py_in_ints in I. contradiction. }
    destruct c; simpl in N, F |- *;
      unfold move, change_shutter, set_shutter_mode, bind, lift, gets,
        assert, raise;
      rewrite N, F; reflexivity.
Qed.

(** X5: with nothing pending, a move on a wheel of the controller to a
    position outside 0..9 or at a speed outside 0..7 raises
    [AssertionError] with the instance as it was. *)
Theorem move_range_checked_when_idle (self : Controller T)
    (position wheel speed : value) (w : Z) (block : bool) :
  n2c wheel = Ok (VInt w) -> In w (wheels self) ->
  _pending_cmd self = None ->
  py_in position (range 10) = false \/ py_in speed (range 8) = false ->
  move position wheel speed block self = (Raise AssertionError, self).
Proof.
  intros N W P Bad. unfold move.
  unfold bind at 1. unfold lift at 1. rewrite N.
  unfold bind at 1, gets at 1. unfold bind at 1.
  rewrite (proj2 (py_in_ints w (wheels self)) W).
  unfold assert at 1, ret at 1.
  unfold bind at 1. rewrite (finish_if_pending_none self P).
  unfold bind at 1.
  destruct Bad as [Bad|Bad].
  - rewrite Bad. reflexivity.
  - destruct (py_in position (range 10)); [|reflexivity].
    unfold assert at 1, ret at 1. unfold bind at 1. rewrite Bad. reflexivity.
Qed.

End Issue.

(** ** What a call keeps and what it leaves pending *)

Lemma replace_nth_length (l : list Z) (n : nat) (v : Z) :
  (n < List.length l)%nat ->
  List.length (firstn n l ++ v :: skipn (S n) l) = List.length l.
Proof.
  intros L. rewrite length_app, length_firstn. cbn [List.length].
  rewrite length_skipn. lia.
Qed.

Lemma list_setitem_length (l l' : list Z) (i v : Z) :
  list_setitem l i v = Ok l' -> List.length l' = List.length l.
Proof.
  unfold list_setitem.
  destruct ((0 <=? i) && (i <? Z.of_nat (List.length l))) eqn:A.
  - apply andb_true_iff in A as [A1 A2].
    apply Z.leb_le in A1. apply Z.ltb_lt in A2.
    intros E. injection E as E. rewrite <- E.
    apply replace_nth_length. lia.
  - destruct ((- Z.of_nat (List.length l) <=? i) && (i <? 0)) eqn:B;
      [|discriminate].
    apply andb_true_iff in B as [B1 B2].
    apply Z.leb_le in B1. apply Z.ltb_lt in B2.
    intros E. injection E as E. rewrite <- E.
    apply replace_nth_length. lia.
Qed.

Section Frame.

Context {T : Type} `{Transport T}.

Lemma same_channels_refl (self : Controller T) : same_channels self self.
Proof. repeat split. Qed.

Lemma same_channels_trans (a b c : Controller T) :
  same_channels a b -> same_channels b c -> same_channels a c.
Proof.
  unfold same_channels. intros (A1 & A2 & A3 & A4) (B1 & B2 & B3 & B4).
  repeat split; congruence.
Qed.

Lemma finish_same_channels (self self' : Controller T) (r : result unit) :
  _finish_moving self = (r, self') -> same_channels self self'.
Proof.
  intros E. apply finish_frame in E as (A & B & C & D & _).
  unfold same_channels. rewrite A, B, C, D. repeat split.
Qed.

Lemma finish_if_pending_same_channels (self self' : Controller T)
    (r : result unit) :
  finish_if_pending self = (r, self') -> same_channels self self'.
Proof.
  intros E. unfold finish_if_pending, bind, gets in E.
  destruct (_pending_cmd self).
  - exact (finish_same_channels _ _ _ E).
  - inversion E; subst. apply same_channels_refl.
Qed.

Lemma finish_ok_pending (self self' : Controller T) :
  _finish_moving self = (Ok tt, self') -> _pending_cmd self' = None.
Proof.
  intros E. destruct (_pending_cmd self) as [p|] eqn:P.
  - destruct (port_read (List.length p + 1) (port self)) as [resp t'] eqn:R.
    rewrite (finish_some self p resp t' P R) in E.
    destruct (bytes_eqb resp (echo p)); [|discriminate].
    inversion E; subst. reflexivity.
  - rewrite (finish_none self P) in E. inversion E; subst. exact P.
Qed.

End Frame.

(** Turns what is known of the completions and of the list assignment met
    on the way into facts about the attributes. *)
Ltac collect_frames :=
  repeat match goal with
         | F : finish_if_pending _ = _ |- _ =>
             apply finish_if_pending_same_channels in F
         | F : _finish_moving _ = _ |- _ =>
             apply finish_same_channels in F
         | L : list_setitem _ _ _ = Ok _ |- _ =>
             apply list_setitem_length in L
         end.

Ltac close_frame E :=
  cbn [verbose port wheels shutters _pending_cmd wheel_target_positions
       io_log] in *;
  first [ apply finish_same_channels in E | inversion E; subst ];
  collect_frames;
  unfold same_channels in *;
  cbn [verbose port wheels shutters _pending_cmd wheel_target_positions
       io_log] in *;
  intuition congruence.

Section Outcomes.

Context {T : Type} `{Transport T}.

(** X6: no public call, whether it returns or raises, changes the lists of
    detected wheels and shutters, the verbosity, or the number of recorded
    target positions. *)
Theorem calls_keep_channels (c : public_call) (self self' : Controller T)
    (r : result unit) :
  run_call c self = (r, self') ->
  wheels self' = wheels self
  /\ shutters self' = shutters self
  /\ verbose self' = verbose self
  /\ List.length (wheel_target_positions self') =
     List.length (wheel_target_positions self).
Proof.
  intros E. change (same_channels self self').
  destruct c; simpl in E;
    unfold move, change_shutter, set_shutter_mode in E;
    unfold_monad E; crunch E; close_frame E.
Qed.

End Outcomes.

Lemma nth_replace (ps : list Z) (n : nat) (p : Z) (i : nat) :
  (n < List.length ps)%nat ->
  nth i (firstn n ps ++ p :: skipn (S n) ps) (-1) =
    if (i =? n)%nat then p else nth i ps (-1).
Proof.
  intros Ln. destruct (Nat.eqb_spec i n) as [->|Ne].
  - rewrite <- (firstn_length_le ps (n := n)) at 1 by lia.
    apply nth_middle.
  - rewrite <- (firstn_skipn n ps) at 3.
    destruct (Nat.lt_ge_cases i n) as [Lt|Ge].
    + rewrite !app_nth1 by (rewrite length_firstn; lia). reflexivity.
    + rewrite !app_nth2 by (rewrite length_firstn; lia).
      rewrite length_firstn, Nat.min_l by lia.
      destruct (i - n)%nat as [|k] eqn:K; [lia|]. cbn [nth].
      replace (skipn n ps) with (firstn 1 (skipn n ps) ++ skipn (S n) ps).
      2:{ change (S n) with (1 + n)%nat. rewrite <- (skipn_skipn 1 n ps).
          apply firstn_skipn. }
      rewrite app_nth2; rewrite length_firstn, length_skipn.
      * replace (S k - Nat.min 1 (List.length ps - n))%nat with k by lia.
        reflexivity.
      * lia.
Qed.

(** Splits the goal on the innermost test it is stuck on. *)
Ltac crunch_goal :=
  repeat (cbv beta iota;
          match goal with
          | |- context [match ?x with _ => _ end] =>
              lazymatch x with
              | context [match _ with _ => _ end] => fail
              | _ => destruct x eqn:?
              end
          end).

Section Completion.

Context {T : Type} `{Transport T}.

(** X7: a public call that returns leaves nothing pending when it blocks;
    when it does not block it leaves pending the command it wrote, and
    that write is the last call it made on the port. *)
Theorem call_outcome (c : public_call) (self self' : Controller T) :
  run_call c self = (Ok tt, self') ->
  if block_of c then _pending_cmd self' = None
  else exists cmd before,
         _pending_cmd self' = Some cmd
         /\ io_log self' = before ++ [EvWrite cmd].
Proof.
  intros E.
  destruct c; simpl in E |- *;
    unfold move, change_shutter, set_shutter_mode in E;
    unfold_monad E; crunch E;
    try discriminate;
    cbn [verbose port wheels shutters _pending_cmd wheel_target_positions
         io_log] in *;
    first [ exact (finish_ok_pending _ _ E)
          | inversion E; subst; do 2 eexists; split; reflexivity ].
Qed.

(** X8: a call that does not block, followed by [_finish_moving], is the
    blocking call: the same outcome and the same instance, on every
    instance and port. *)
Theorem nonblocking_then_finish (c : public_call) (self : Controller T) :
  (run_call (with_block false c) ;; _finish_moving) self
  = run_call (with_block true c) self.
Proof.
  destruct c; simpl;
    unfold move, change_shutter, set_shutter_mode;
    unfold set_pending_cmd, set_wheel_target_positions, write, when, assert;
    unfold bind, lift, gets, ret, raise, modify, io;
    crunch_goal; reflexivity.
Qed.

(** X9: once [_finish_moving] has returned, calling it again does nothing:
    it returns at once with the instance and the log as they are. *)
Theorem finish_moving_twice (self self' : Controller T) :
  _finish_moving self = (Ok tt, self') ->
  _finish_moving self' = (Ok tt, self').
Proof.
  intros E. apply finish_none. exact (finish_ok_pending _ _ E).
Qed.

(** X10: a valid move issued with nothing pending, on a wheel whose channel
    indexes inside the list of target positions, stores the position at
    that index and leaves the other entries alone, as soon as the command
    is written: whether or not it blocks, and also when it raises because
    the echo is wrong. *)
Theorem move_target_recorded (self self' : Controller T) (wheel : value)
    (w p s : Z) (block : bool) (r : result unit) :
  n2c wheel = Ok (VInt w) -> In w (wheels self) ->
  0 <= p <= 9 -> 0 <= s <= 7 -> _pending_cmd self = None ->
  0 <= w < Z.of_nat (List.length (wheel_target_positions self)) ->
  move (VInt p) wheel (VInt s) block self = (r, self') ->
  forall i : nat,
    nth i (wheel_target_positions self') (-1) =
      if (i =? Z.to_nat w)%nat then p
      else nth i (wheel_target_positions self) (-1).
Proof.
  intros N W Rp Rs P Rw E i.
  rewrite (move_issue self wheel w p s block N W Rp Rs P) in E.
  rewrite (list_setitem_ok _ _ _ Rw) in E.
  set (ps := wheel_target_positions self) in *.
  set (n := Z.to_nat w) in *.
  assert (Ln : (n < List.length ps)%nat) by (unfold n; lia).
  pose proof (nth_replace ps n p i Ln) as G.
  destruct block; unfold when in E.
  - apply finish_frame in E as (_ & _ & _ & -> & _). exact G.
  - inversion E; subst. exact G.
Qed.

End Completion.

(** ** The configuration answer, field by field *)

Lemma substring_all (s : string) : substring 0 (String.length s) s = s.
Proof. induction s as [|c s IH]; simpl; [reflexivity|now rewrite IH]. Qed.

(** A field is its tag followed by its sub-type. *)
Lemma field_split (f : string) :
  (slice 0 3 f ++ slice_from 3 f)%string = f.
Proof.
  unfold slice, slice_from.
  destruct f as [|a [|b [|c r]]]; try reflexivity.
  cbn [String.length Nat.sub substring String.append].
  rewrite Nat.sub_0_r, substring_all.
  destruct r; reflexivity.
Qed.

Lemma eqb_append (tag x y : string) :
  String.eqb (tag ++ x) (tag ++ y) = String.eqb x y.
Proof.
  induction tag as [|c tag IH]; simpl; [reflexivity|].
  rewrite Ascii.eqb_refl. exact IH.
Qed.

Lemma eqb_field (f tag ty : string) :
  slice 0 3 f = tag ->
  String.eqb f (tag ++ ty) = String.eqb (slice_from 3 f) ty.
Proof.
  intros E. rewrite <- (field_split f) at 1. rewrite E. apply eqb_append.
Qed.

Lemma decode_ascii_fails (bs : list Z) (b : Z) :
  In b bs -> ~ (0 <= b < 128) -> decode_ascii bs = Raise UnicodeDecodeError.
Proof.
  intros I N. unfold decode_ascii.
  destruct (forallb _ bs) eqn:F; [|reflexivity].
  rewrite forallb_forall in F. specialize (F b I).
  apply andb_true_iff in F as [F1 F2].
  apply Z.leb_le in F1. apply Z.ltb_lt in F2. lia.
Qed.

Ltac norm_parse E :=
  cbv beta iota in E;
  cbn [verbose port wheels shutters _pending_cmd wheel_target_positions
       io_log app map List.length Nat.eqb Nat.ltb Nat.leb andb orb negb]
    in E.

(** Evaluates what is left of [parse_configuration] in [E] once the checks
    are decided. *)
Ltac run_parse E :=
  repeat (cbv beta iota in E;
          cbn [verbose port wheels shutters _pending_cmd
               wheel_target_positions io_log app map List.length
               Nat.eqb Nat.ltb Nat.leb andb orb negb] in E;
          match type of E with
          | context [comprehension c2n ?l] =>
              let x := eval vm_compute in (comprehension c2n l) in
              progress change (comprehension c2n l) with x in E
          | context [match ?x with _ => _ end] =>
              lazymatch x with
              | context [match _ with _ => _ end] => fail
              | _ => destruct x eqn:?
              end
          end).

Section Fields.

Context {T : Type} `{Transport T}.

Lemma init_refused (t t' : T) (vb : bool) (resp : list Z) (e : exn) :
  port_readline (port_write [253] t) = (resp, t') ->
  parse_configuration resp
    (mkController vb t' [] [] None [] [EvWrite [253]; EvReadline resp])
  = refused vb t' resp e ->
  __init__ t vb = refused vb t' resp e.
Proof.
  intros R E. unfold __init__, init_body. unfold bind at 1.
  rewrite (resolve_configuration_read t t' vb resp R), E. reflexivity.
Qed.

(** X11: a 31-byte answer whose third field is anything but "WC-NC" makes
    [__init__] raise [AssertionError], whatever the other fields say; no
    channel is recorded and the port is not used again. *)
Theorem wheel_C_refused (t t' : T) (vb : bool) (resp : list Z)
    (config_s : string) :
  port_readline (port_write [253] t) = (resp, t') ->
  List.length resp = 31%nat ->
  decode_ascii (skipn 5 resp) = Ok config_s ->
  slice 10 15 config_s <> "WC-NC" ->
  __init__ t vb =
    (Raise AssertionError,
     mkController vb t' [] [] None [] [EvWrite [253]; EvReadline resp]).
Proof.
  intros R L D Hwc. apply (init_refused t t' vb resp AssertionError R).
  unfold parse_configuration. rewrite L, D.
  apply String.eqb_neq in Hwc.
  unfold bind, assert, lift, ret, raise. cbn [Nat.eqb negb].
  rewrite Hwc. reflexivity.
Qed.

(** X12: a 31-byte answer with a byte above 127 after its first five makes
    [__init__] raise [UnicodeDecodeError] before any field is looked at. *)
Theorem non_ascii_answer_refused (t t' : T) (vb : bool) (resp : list Z)
    (b : Z) :
  port_readline (port_write [253] t) = (resp, t') ->
  List.length resp = 31%nat ->
  In b (skipn 5 resp) -> 127 < b ->
  __init__ t vb =
    (Raise UnicodeDecodeError,
     mkController vb t' [] [] None [] [EvWrite [253]; EvReadline resp]).
Proof.
  intros R L I B. apply (init_refused t t' vb resp UnicodeDecodeError R).
  unfold parse_configuration. rewrite L.
  rewrite (decode_ascii_fails (skipn 5 resp) b I) by lia.
  reflexivity.
Qed.

(** X13: with wheel C absent, a field that does not start with its own tag
    ("WA-", "WB-", "SA-", "SB-"), or a wheel field whose sub-type is
    neither "25" nor "NC", makes [__init__] raise [AssertionError]. *)
Theorem tags_and_wheel_types_checked (t t' : T) (vb : bool)
    (resp : list Z) (config_s : string) :
  port_readline (port_write [253] t) = (resp, t') ->
  List.length resp = 31%nat ->
  decode_ascii (skipn 5 resp) = Ok config_s ->
  slice 10 15 config_s = "WC-NC" ->
  let wa := slice 0 5 config_s in
  let wb := slice 5 10 config_s in
  let sa := slice 15 20 config_s in
  let sb := slice 20 25 config_s in
  ~ (slice 0 3 wa = "WA-" /\ slice 0 3 wb = "WB-"
     /\ slice 0 3 sa = "SA-" /\ slice 0 3 sb = "SB-"
     /\ (slice_from 3 wa = "25" \/ slice_from 3 wa = "NC")
     /\ (slice_from 3 wb = "25" \/ slice_from 3 wb = "NC")) ->
  __init__ t vb =
    (Raise AssertionError,
     mkController vb t' [] [] None [] [EvWrite [253]; EvReadline resp]).
Proof.
  intros R L D Hwc wa wb sa sb Bad.
  apply (init_refused t t' vb resp AssertionError R).
  unfold parse_configuration. rewrite L, D.
  unfold bind, assert, lift, ret, raise. cbn [Nat.eqb negb for_each].
  cbv beta iota zeta. rewrite Hwc, String.eqb_refl. cbv beta iota.
  fold wa wb sa sb.
  destruct (String.eqb_spec (slice 0 3 wa) "WA-"); [|reflexivity].
  destruct (String.eqb_spec (slice 0 3 wb) "WB-"); [|reflexivity].
  cbn [andb].
  destruct (String.eqb_spec (slice 0 3 sa) "SA-"); [|reflexivity].
  destruct (String.eqb_spec (slice 0 3 sb) "SB-"); [|reflexivity].
  cbn [andb]. unfold bind.
  destruct (String.eqb_spec (slice_from 3 wa) "25");
    destruct (String.eqb_spec (slice_from 3 wa) "NC");
    destruct (String.eqb_spec (slice_from 3 wb) "25");
    destruct (String.eqb_spec (slice_from 3 wb) "NC");
    cbn [orb]; try reflexivity; exfalso; apply Bad; tauto.
Qed.

End Fields.

Section Detection.

Context {T : Type} `{Transport T}.

(** X14: of an answer that passes every check, wheel A (channel 0) and
    wheel B (channel 1) are recorded exactly when their sub-type is "25",
    and shutter A and shutter B exactly when theirs is "IQ": a "VS" shutter
    passes the check and is not recorded.  The outcome is [RuntimeError]
    when [verbose] is set and nothing was recorded, and normal otherwise. *)
Theorem detected_channels (t t' : T) (vb : bool) (resp : list Z)
    (config_s : string) :
  port_readline (port_write [253] t) = (resp, t') ->
  List.length resp = 31%nat ->
  decode_ascii (skipn 5 resp) = Ok config_s ->
  slice 10 15 config_s = "WC-NC" ->
  let wa := slice 0 5 config_s in
  let wb := slice 5 10 config_s in
  let sa := slice 15 20 config_s in
  let sb := slice 20 25 config_s in
  slice 0 3 wa = "WA-" -> slice 0 3 wb = "WB-" ->
  slice 0 3 sa = "SA-" -> slice 0 3 sb = "SB-" ->
  slice_from 3 wa = "25" \/ slice_from 3 wa = "NC" ->
  slice_from 3 wb = "25" \/ slice_from 3 wb = "NC" ->
  slice_from 3 sa = "IQ" \/ slice_from 3 sa = "VS" ->
  slice_from 3 sb = "IQ" \/ slice_from 3 sb = "VS" ->
  let ws := (if String.eqb (slice_from 3 wa) "25" then [0] else [])
            ++ (if String.eqb (slice_from 3 wb) "25" then [1] else []) in
  let ss := (if String.eqb (slice_from 3 sa) "IQ" then [0] else [])
            ++ (if String.eqb (slice_from 3 sb) "IQ" then [1] else []) in
  resolve_configuration (new_instance t vb) =
    (if vb && (List.length ws =? 0)%nat && (List.length ss =? 0)%nat
     then Raise RuntimeError else Ok tt,
     mkController vb t' ws ss None [] [EvWrite [253]; EvReadline resp]).
Proof.
  intros R L D Hwc wa wb sa sb Hwa Hwb Hsa Hsb Ta Tb Sa Sb ws ss.
  rewrite (resolve_configuration_read t t' vb resp R).
  assert (Ba : String.eqb (slice_from 3 wa) "25"
               || String.eqb (slice_from 3 wa) "NC" = true)
    by (destruct Ta as [-> | ->]; reflexivity).
  assert (Bb : String.eqb (slice_from 3 wb) "25"
               || String.eqb (slice_from 3 wb) "NC" = true)
    by (destruct Tb as [-> | ->]; reflexivity).
  assert (Ca : String.eqb (slice_from 3 sa) "IQ"
               || String.eqb (slice_from 3 sa) "VS" = true)
    by (destruct Sa as [-> | ->]; reflexivity).
  assert (Cb : String.eqb (slice_from 3 sb) "IQ"
               || String.eqb (slice_from 3 sb) "VS" = true)
    by (destruct Sb as [-> | ->]; reflexivity).
  pose proof (eqb_field wa "WA-" "25" Hwa) as Fa.
  pose proof (eqb_field wb "WB-" "25" Hwb) as Fb.
  pose proof (eqb_field sa "SA-" "IQ" Hsa) as Ga.
  pose proof (eqb_field sb "SB-" "IQ" Hsb) as Gb.
  cbn [String.append] in Fa, Fb, Ga, Gb.
  destruct (parse_configuration _ _) as [r s'] eqn:E.
  unfold parse_configuration in E.
  rewrite L, D in E. unfold_monad E. cbn [Nat.eqb negb for_each] in E.
  unfold_monad E. fold wa wb sa sb in E.
  rewrite Hwc, Hwa, Hwb, Hsa, Hsb, Ba, Bb, Ca, Cb, Fa, Fb, Ga, Gb in E.
  rewrite !String.eqb_refl in E. cbn [andb] in E. cbv beta iota in E.
  subst ws ss.
  norm_parse E.
  destruct (String.eqb (slice_from 3 wa) "25"); norm_parse E;
    destruct (String.eqb (slice_from 3 wb) "25"); norm_parse E;
    destruct (String.eqb (slice_from 3 sa) "IQ"); norm_parse E;
    destruct (String.eqb (slice_from 3 sb) "IQ"); norm_parse E;
    destruct vb;
    run_parse E; inversion E; subst; reflexivity.
Qed.

End Detection.

(** ** One blocking command after another *)

Lemma list_setitem_inv (ps ps' : list Z) (w v : Z) :
  0 <= w -> list_setitem ps w v = Ok ps' ->
  0 <= w < Z.of_nat (List.length ps)
  /\ ps' = firstn (Z.to_nat w) ps ++ v :: skipn (S (Z.to_nat w)) ps.
Proof.
  intros Pos E. unfold list_setitem in E.
  destruct (Z.leb_spec 0 w); [|lia].
  destruct (Z.ltb_spec w (Z.of_nat (List.length ps))); cbn [andb] in E.
  - injection E as E. split; [lia|]. symmetry. exact E.
  - destruct (Z.ltb_spec w 0); [lia|].
    rewrite andb_false_r in E. discriminate.
Qed.

Lemma n2c_int (w : Z) (c : value) :
  n2c (VInt w) = Ok c -> (w = 0 \/ w = 1) /\ c = VInt w.
Proof.
  intros E.
  destruct (channel_id_cases (VInt w)) as [X|[X|[X|[X|(A & B & C & D)]]]];
    try discriminate.
  - inversion X; subst. inversion E; auto.
  - inversion X; subst. inversion E; auto.
  - rewrite (n2c_other _ A B C D) in E. discriminate.
Qed.

Section Steps.

Context {T : Type} `{Transport T}.

Lemma finish_ok_exact (self self' : Controller T) (cmd : list Z) :
  _pending_cmd self = Some cmd ->
  _finish_moving self = (Ok tt, self') ->
  exists t',
    self' = mkController (verbose self) t' (wheels self) (shutters self)
              None (wheel_target_positions self)
              (io_log self ++ [EvRead (List.length cmd + 1) (cmd ++ [CR]);
                               EvInWaiting 0]).
Proof.
  intros P E.
  destruct (port_read (List.length cmd + 1) (port self)) as [resp t'] eqn:R.
  rewrite (finish_some self cmd resp t' P R) in E.
  destruct (bytes_eqb resp (echo cmd)) eqn:B; [|discriminate].
  apply bytes_eqb_eq in B. unfold echo in B. subst resp.
  destruct (Nat.eqb_spec (port_in_waiting t') 0) as [Z0|NZ]; [|discriminate].
  rewrite Z0 in E. inversion E; subst. exists t'. reflexivity.
Qed.

(** The instance after [cmd] was written and its echo found. *)
Lemma issued_finish_ok (self self' : Controller T) (cmd : list Z) :
  _finish_moving (issued cmd self) = (Ok tt, self') ->
  exists t',
    self' = mkController (verbose self) t' (wheels self) (shutters self)
              None (wheel_target_positions self)
              (io_log self ++ exchange cmd).
Proof.
  intros E.
  destruct (finish_ok_exact (issued cmd self) self' cmd eq_refl E)
    as (t' & ->).
  exists t'. cbn [issued verbose wheels shutters wheel_target_positions
                  io_log]. rewrite <- app_assoc. reflexivity.
Qed.

(** A blocking move to position 0 that returns. *)
Lemma park_step (self self' : Controller T) (w : Z) :
  _pending_cmd self = None ->
  move (VInt 0) (VInt w) (VInt 6) true self = (Ok tt, self') ->
  (w = 0 \/ w = 1)
  /\ In w (wheels self)
  /\ 0 <= w < Z.of_nat (List.length (wheel_target_positions self))
  /\ advances self self' (exchange [Z.shiftl w 7 + Z.shiftl 6 4 + 0])
  /\ wheel_target_positions self' =
     firstn (Z.to_nat w) (wheel_target_positions self)
     ++ 0 :: skipn (S (Z.to_nat w)) (wheel_target_positions self).
Proof.
  intros P E.
  destruct (n2c (VInt w)) as [c|e] eqn:N.
  2:{ unfold move, bind, lift in E. rewrite N in E. discriminate. }
  destruct (n2c_int w c N) as [Rw ->].
  destruct (in_dec Z.eq_dec w (wheels self)) as [I|NI].
  2:{ destruct (move_rejects_channel self (VInt 0) (VInt w) (VInt 6) true)
        as (e & X).
      - intros w' N' I'. rewrite N in N'. inversion N'; subst. contradiction.
      - rewrite X in E. discriminate. }
  rewrite (move_issue self (VInt w) w 0 6 true N I) in E by (auto; lia).
  destruct (move_byte_fields w 6 0) as [Sum _]; try lia.
  rewrite <- Sum in E.
  destruct (list_setitem (wheel_target_positions self) w 0) as [ps|e] eqn:L;
    [|discriminate].
  apply list_setitem_inv in L as [Rng ->]; [|lia].
  unfold when in E.
  match type of E with
  | _finish_moving ?S = _ =>
      destruct (finish_ok_exact S self' [Z.shiftl w 7 + Z.shiftl 6 4 + 0]
                  eq_refl E) as (t' & ->)
  end.
  cbn [with_targets issued verbose port wheels shutters _pending_cmd
       wheel_target_positions io_log].
  unfold advances, exchange.
  cbn [verbose port wheels shutters _pending_cmd wheel_target_positions
       io_log].
  rewrite <- app_assoc. repeat split; auto; lia.
Qed.

(** A blocking shutter command that returns. *)
Lemma close_shutter_step (self self' : Controller T) (sh : Z) :
  _pending_cmd self = None ->
  change_shutter (VStr "closed") (VInt sh) true self = (Ok tt, self') ->
  (sh = 0 \/ sh = 1)
  /\ In sh (shutters self)
  /\ advances self self' (exchange [128 + 32 + Z.shiftl sh 4 + 8 + 4])
  /\ wheel_target_positions self' = wheel_target_positions self.
Proof.
  intros P E.
  destruct (n2c (VInt sh)) as [c|e] eqn:N.
  2:{ unfold change_shutter, bind, lift in E. rewrite N in E. discriminate. }
  destruct (n2c_int sh c N) as [Rs ->].
  destruct (in_dec Z.eq_dec sh (shutters self)) as [I|NI].
  2:{ destruct (change_shutter_rejects_channel self (VStr "closed")
                  (VInt sh) true) as (e & X).
      - intros c' N' I'. rewrite N in N'. inversion N'; subst. contradiction.
      - rewrite X in E. discriminate. }
  rewrite (change_shutter_issue_block self _ (VInt sh) sh false true N I P
             eq_refl) in E.
  unfold when in E. destruct (issued_finish_ok _ _ _ E) as (t' & ->).
  unfold advances, encode_shutter_state.
  cbn [verbose port wheels shutters _pending_cmd wheel_target_positions
       io_log].
  replace (128 + 32 + Z.shiftl sh 4 + 8 + 4)
    with (128 + 32 + 8 + Z.shiftl sh 4 + 4) by lia.
  repeat split; auto.
Qed.

Lemma soft_mode_step (self self' : Controller T) (sh : Z) :
  _pending_cmd self = None ->
  set_shutter_mode (VStr "soft") (VInt sh) true self = (Ok tt, self') ->
  (sh = 0 \/ sh = 1)
  /\ In sh (shutters self)
  /\ advances self self' (exchange [221; sh + 1])
  /\ wheel_target_positions self' = wheel_target_positions self.
Proof.
  intros P E.
  destruct (n2c (VInt sh)) as [c|e] eqn:N.
  2:{ unfold set_shutter_mode, bind, lift in E. rewrite N in E.
      discriminate. }
  destruct (n2c_int sh c N) as [Rs ->].
  destruct (in_dec Z.eq_dec sh (shutters self)) as [I|NI].
  2:{ destruct (set_shutter_mode_rejects_channel self (VStr "soft")
                  (VInt sh) true) as (e & X).
      - intros c' N' I'. rewrite N in N'. inversion N'; subst. contradiction.
      - rewrite X in E. discriminate. }
  rewrite (set_shutter_mode_issue self _ (VInt sh) sh false true N I P
             eq_refl) in E.
  unfold when in E. destruct (issued_finish_ok _ _ _ E) as (t' & ->).
  unfold advances.
  cbn [verbose port wheels shutters _pending_cmd wheel_target_positions
       io_log].
  repeat split; auto.
Qed.

Lemma advances_nil (self : Controller T) :
  _pending_cmd self = None -> advances self self [].
Proof. intros P. unfold advances. rewrite app_nil_r. auto. Qed.

Lemma advances_app (a b c : Controller T) (e1 e2 : list io_event) :
  advances a b e1 -> advances b c e2 -> advances a c (e1 ++ e2).
Proof.
  unfold advances.
  intros (A1 & A2 & A3 & A4 & A5) (B1 & B2 & B3 & B4 & B5).
  rewrite B5, A5, app_assoc. repeat split; congruence.
Qed.

(** The loop over the wheels, in [__init__] and in [close]. *)
Lemma park_loop (ws : list Z) :
  forall self self' : Controller T,
    _pending_cmd self = None ->
    for_each ws (fun wheel => move (VInt 0) (VInt wheel) (VInt 6) true) self
    = (Ok tt, self') ->
    advances self self'
      (flat_map (fun w => exchange [Z.shiftl w 7 + Z.shiftl 6 4 + 0]) ws)
    /\ List.length (wheel_target_positions self') =
       List.length (wheel_target_positions self)
    /\ (forall i, nth i (wheel_target_positions self) (-1) = 0 ->
                  nth i (wheel_target_positions self') (-1) = 0)
    /\ (forall w, In w ws ->
          (w = 0 \/ w = 1)
          /\ In w (wheels self)
          /\ 0 <= w < Z.of_nat (List.length (wheel_target_positions self))
          /\ nth (Z.to_nat w) (wheel_target_positions self') (-1) = 0).
Proof.
  induction ws as [|w ws IH]; intros self self' P E.
  - cbn [for_each] in E. inversion E; subst. cbn [flat_map].
    split; [apply advances_nil; exact P|].
    split; [reflexivity|]. split; [auto|]. intros w [].
  - cbn [for_each] in E. unfold bind in E.
    destruct (move (VInt 0) (VInt w) (VInt 6) true self) as [[[]|e] s1] eqn:M;
      [|discriminate].
    destruct (park_step self s1 w P M) as (Rw & I & Rng & Adv & Ps).
    assert (P1 : _pending_cmd s1 = None) by (apply Adv).
    destruct (IH s1 self' P1 E) as (Adv' & Len & Keep & All).
    assert (L1 : List.length (wheel_target_positions s1) =
                 List.length (wheel_target_positions self)).
    { rewrite Ps. apply replace_nth_length. lia. }
    assert (N1 : forall i, nth i (wheel_target_positions s1) (-1) =
                   if (i =? Z.to_nat w)%nat then 0
                   else nth i (wheel_target_positions self) (-1)).
    { intros i. rewrite Ps. apply nth_replace. lia. }
    cbn [flat_map]. split; [exact (advances_app _ _ _ _ _ Adv Adv')|].
    split; [congruence|]. split.
    + intros i Z0. apply Keep. rewrite N1.
      destruct (i =? Z.to_nat w)%nat; auto.
    + intros w' [<-|I'].
      * repeat split; auto; try lia.
        apply Keep. rewrite N1, Nat.eqb_refl. reflexivity.
      * destruct (All w' I') as (A1 & A2 & A3 & A4).
        destruct Adv as (W1 & _). rewrite W1 in A2. rewrite L1 in A3.
        repeat split; auto; lia.
Qed.

(** A loop whose body makes the calls [f x] and leaves the target
    positions alone. *)
Lemma steady_loop {A} (body : A -> M T unit) (f : A -> list io_event) :
  (forall x self self',
     _pending_cmd self = None -> body x self = (Ok tt, self') ->
     advances self self' (f x)
     /\ wheel_target_positions self' = wheel_target_positions self) ->
  forall (xs : list A) (self self' : Controller T),
    _pending_cmd self = None ->
    for_each xs body self = (Ok tt, self') ->
    advances self self' (flat_map f xs)
    /\ wheel_target_positions self' = wheel_target_positions self.
Proof.
  intros Step. induction xs as [|x xs IH]; intros self self' P E.
  - cbn [for_each] in E. inversion E; subst. cbn [flat_map].
    split; [apply advances_nil; exact P|reflexivity].
  - cbn [for_each] in E. unfold bind in E.
    destruct (body x self) as [[[]|e] s1] eqn:B; [|discriminate].
    destruct (Step x self s1 P B) as (Adv & Ps).
    assert (P1 : _pending_cmd s1 = None) by (apply Adv).
    destruct (IH s1 self' P1 E) as (Adv' & Ps').
    cbn [flat_map]. split; [exact (advances_app _ _ _ _ _ Adv Adv')|].
    congruence.
Qed.

End Steps.

(** ** What [__init__] establishes *)

Lemma nth_repeat_zero (n i : nat) :
  (i < n)%nat -> nth i (repeat 0 n) (-1) = 0.
Proof.
  revert i. induction n as [|n IH]; intros i L; [lia|].
  destruct i as [|i]; [reflexivity|]. cbn [repeat nth]. apply IH. lia.
Qed.

Lemma all_zero (ps : list Z) :
  (forall i, (i < List.length ps)%nat -> nth i ps (-1) = 0) ->
  ps = repeat 0 (List.length ps).
Proof.
  induction ps as [|a ps IH]; intros Z0; [reflexivity|].
  cbn [List.length repeat]. f_equal.
  - apply (Z0 0%nat). cbn [List.length]. lia.
  - apply IH. intros i L. apply (Z0 (S i)). cbn [List.length]. lia.
Qed.

Section Homing.

Context {T : Type} `{Transport T}.

Lemma resolve_ok_shape (t : T) (vb : bool) (self : Controller T) :
  resolve_configuration (new_instance t vb) = (Ok tt, self) ->
  exists t' resp ws ss,
    List.length resp = 31%nat
    /\ self = mkController vb t' ws ss None []
                [EvWrite [253]; EvReadline resp]
    /\ (ws = [] \/ ws = [0] \/ ws = [1] \/ ws = [0; 1])
    /\ (ss = [] \/ ss = [0] \/ ss = [1] \/ ss = [0; 1])
    /\ (vb = true -> ws <> [] \/ ss <> []).
Proof.
  intros E.
  destruct (port_readline (port_write [253] t)) as [resp t'] eqn:R.
  rewrite (resolve_configuration_read t t' vb resp R) in E.
  unfold parse_configuration, decode_ascii in E.
  unfold_monad E. cbn [for_each] in E. unfold_monad E.
  destruct vb; run_parse E; try discriminate.
  all: match goal with
       | Hq : (List.length _ =? 31)%nat = true |- _ =>
           apply Nat.eqb_eq in Hq
       end.
  all: inversion E; subst; exists t', resp; do 2 eexists;
    (split; [assumption|]); (split; [reflexivity|]);
    (split; [auto 6|]); (split; [auto 6|]);
    first [ discriminate
          | intros _; left; discriminate
          | intros _; right; discriminate ].
Qed.

(** [home] as two loops. *)
Lemma home_loops (self : Controller T) :
  home self =
    match
      for_each (wheels self)
        (fun wheel => move (VInt 0) (VInt wheel) (VInt 6) true)
        (mkController (verbose self) (port self) (wheels self)
           (shutters self) None (repeat 0 (List.length (wheels self)))
           (io_log self))
    with
    | (Ok _, s1) =>
        for_each (shutters s1)
          (fun shutter =>
             set_shutter_mode (VStr "soft") (VInt shutter) true ;;
             change_shutter (VStr "closed") (VInt shutter) true) s1
    | (Raise e, s1) => (Raise e, s1)
    end.
Proof. reflexivity. Qed.

Lemma soft_closed_step (sh : Z) (self self' : Controller T) :
  _pending_cmd self = None ->
  (set_shutter_mode (VStr "soft") (VInt sh) true ;;
   change_shutter (VStr "closed") (VInt sh) true) self = (Ok tt, self') ->
  advances self self'
    (exchange [221; sh + 1] ++ exchange [128 + 32 + Z.shiftl sh 4 + 8 + 4])
  /\ wheel_target_positions self' = wheel_target_positions self.
Proof.
  intros P E. unfold bind in E.
  destruct (set_shutter_mode (VStr "soft") (VInt sh) true self)
    as [[[]|e] s1] eqn:M; [|discriminate].
  destruct (soft_mode_step self s1 sh P M) as (_ & _ & A1 & P1).
  assert (Q : _pending_cmd s1 = None) by (apply A1).
  destruct (close_shutter_step s1 self' sh Q E) as (_ & _ & A2 & P2).
  split; [exact (advances_app _ _ _ _ _ A1 A2)|congruence].
Qed.

Lemma init_ok_shape (t : T) (vb : bool) (self : Controller T) :
  __init__ t vb = (Ok tt, self) ->
  exists resp,
    List.length resp = 31%nat
    /\ verbose self = vb
    /\ _pending_cmd self = None
    /\ (wheels self = [] \/ wheels self = [0] \/ wheels self = [0; 1])
    /\ (shutters self = [] \/ shutters self = [0] \/ shutters self = [1]
        \/ shutters self = [0; 1])
    /\ wheel_target_positions self = repeat 0 (List.length (wheels self))
    /\ (vb = true -> wheels self <> [] \/ shutters self <> [])
    /\ io_log self =
       EvWrite [253] :: EvReadline resp
       :: flat_map (fun w => exchange [Z.shiftl w 7 + Z.shiftl 6 4 + 0])
            (wheels self)
       ++ flat_map (fun sh => exchange [221; sh + 1]
                              ++ exchange [128 + 32 + Z.shiftl sh 4 + 8 + 4])
            (shutters self).
Proof.
  intros E. unfold __init__, init_body in E. unfold bind at 1 in E.
  destruct (resolve_configuration (new_instance t vb)) as [[[]|e] s0] eqn:RC;
    [|discriminate].
  destruct (resolve_ok_shape t vb s0 RC)
    as (t' & resp & ws & ss & L & -> & Ws & Ss & V).
  rewrite home_loops in E.
  cbn [verbose port wheels shutters _pending_cmd wheel_target_positions
       io_log] in E.
  set (s0 := mkController vb t' ws ss None (repeat 0 (List.length ws))
               [EvWrite [253]; EvReadline resp]) in E.
  destruct (for_each ws _ s0) as [[[]|e] s1] eqn:W; [|discriminate].
  destruct (park_loop ws s0 s1 eq_refl W) as (A1 & Len & Keep & All).
  subst s0.
  cbn [verbose port wheels shutters _pending_cmd wheel_target_positions
       io_log] in Len, Keep, All.
  rewrite repeat_length in Len, All.
  assert (Q : _pending_cmd s1 = None) by (apply A1).
  destruct (steady_loop _ _ soft_closed_step (shutters s1) s1 self Q E)
    as (A2 & Ps).
  destruct A1 as (W1 & S1 & V1 & _ & L1).
  destruct A2 as (W2 & S2 & V2 & P2 & L2).
  cbn [verbose port wheels shutters _pending_cmd wheel_target_positions
       io_log] in W1, S1, V1, L1.
  assert (Ws' : ws = [] \/ ws = [0] \/ ws = [0; 1]).
  { destruct Ws as [-> | [-> | [-> | ->]]]; auto.
    destruct (All 1) as (_ & _ & R1 & _); [left; reflexivity|].
    cbn [List.length] in R1. lia. }
  assert (Z0 : wheel_target_positions s1 =
               repeat 0 (List.length ws)).
  { rewrite <- Len. apply all_zero. intros i Li.
    apply Keep. apply nth_repeat_zero. lia. }
  exists resp. rewrite W2, S2, V2, P2, L2, Ps, W1, S1, V1, L1, Z0.
  cbn [app]. repeat split; auto.
Qed.

(** X15: when [__init__] returns, nothing is pending, every recorded
    target position is 0 with one entry per wheel, the wheels are none, A
    alone or A and B (never B alone), the shutters any of the four
    combinations, and with [verbose] set at least one channel was found. *)
Theorem init_establishes (t : T) (vb : bool) (self : Controller T) :
  __init__ t vb = (Ok tt, self) ->
  verbose self = vb
  /\ _pending_cmd self = None
  /\ (wheels self = [] \/ wheels self = [0] \/ wheels self = [0; 1])
  /\ (shutters self = [] \/ shutters self = [0] \/ shutters self = [1]
      \/ shutters self = [0; 1])
  /\ wheel_target_positions self = repeat 0 (List.length (wheels self))
  /\ (vb = true -> wheels self <> [] \/ shutters self <> []).
Proof.
  intros E.
  destruct (init_ok_shape t vb self E)
    as (resp & _ & V & P & W & S & Z0 & N & _).
  repeat split; auto.
Qed.

(** X16: when [__init__] returns, the calls it made on the port are, in
    order: the query byte 0xFD and the read of a 31-byte line; for each
    wheel the move to position 0 at speed 6 and its echo; for each
    shutter the mode "soft" and its echo, then the state "closed" and its
    echo; each echo is read whole and leaves the port empty. *)
Theorem init_homing_sequence (t : T) (vb : bool) (self : Controller T) :
  __init__ t vb = (Ok tt, self) ->
  exists resp,
    List.length resp = 31%nat
    /\ io_log self =
       EvWrite [253] :: EvReadline resp
       :: flat_map (fun w => exchange [Z.shiftl w 7 + Z.shiftl 6 4 + 0])
            (wheels self)
       ++ flat_map (fun sh => exchange [221; sh + 1]
                              ++ exchange [128 + 32 + Z.shiftl sh 4 + 8 + 4])
            (shutters self).
Proof.
  intros E.
  destruct (init_ok_shape t vb self E) as (resp & L & _ & _ & _ & _ & _ & _ & Lg).
  exists resp. auto.
Qed.

End Homing.

(** ** Closing *)

Section Closing.

Context {T : Type} `{Transport T} `{Closing T}.

Lemma close_loops (self : Controller T) :
  close self =
    match
      for_each (wheels self)
        (fun wheel => move (VInt 0) (VInt wheel) (VInt 6) true) self
    with
    | (Ok _, s1) =>
        match
          for_each (shutters s1)
            (fun shutter =>
               change_shutter (VStr "closed") (VInt shutter) true) s1
        with
        | (Ok _, s2) => close_port s2
        | (Raise e, s2) => (Raise e, s2)
        end
    | (Raise e, s1) => (Raise e, s1)
    end.
Proof. reflexivity. Qed.

Lemma closed_step (sh : Z) (self self' : Controller T) :
  _pending_cmd self = None ->
  change_shutter (VStr "closed") (VInt sh) true self = (Ok tt, self') ->
  advances self self' (exchange [128 + 32 + Z.shiftl sh 4 + 8 + 4])
  /\ wheel_target_positions self' = wheel_target_positions self.
Proof.
  intros P E.
  destruct (close_shutter_step self self' sh P E) as (_ & _ & A & Ps).
  auto.
Qed.

(** X17: [close], called with nothing pending, when it returns has moved
    every wheel to position 0 and then closed every shutter, one blocking
    command after the other in the order of the channel lists, and has
    closed the port; the target of every wheel is 0, nothing is pending
    and the channel lists are as they were. *)
Theorem close_parks_and_closes (self self' : Controller T) :
  _pending_cmd self = None ->
  close self = (Ok tt, self') ->
  wheels self' = wheels self
  /\ shutters self' = shutters self
  /\ _pending_cmd self' = None
  /\ (forall w, In w (wheels self) ->
        nth (Z.to_nat w) (wheel_target_positions self') (-1) = 0)
  /\ io_log self' =
     io_log self
     ++ flat_map (fun w => exchange [Z.shiftl w 7 + Z.shiftl 6 4 + 0])
          (wheels self)
     ++ flat_map (fun sh => exchange [128 + 32 + Z.shiftl sh 4 + 8 + 4])
          (shutters self)
  /\ exists t', port self' = port_close t'.
Proof.
  intros P E. rewrite close_loops in E.
  destruct (for_each (wheels self) _ self) as [[[]|e] s1] eqn:W;
    [|discriminate].
  destruct (park_loop (wheels self) self s1 P W) as (A1 & _ & _ & All).
  assert (Q : _pending_cmd s1 = None) by (apply A1).
  destruct (for_each (shutters s1) _ s1) as [[[]|e] s2] eqn:S;
    [|discriminate].
  destruct (steady_loop _ _ closed_step (shutters s1) s1 s2 Q S)
    as (A2 & Ps).
  destruct A1 as (W1 & S1 & _ & _ & L1).
  destruct A2 as (W2 & S2 & _ & P2 & L2).
  unfold close_port, modify in E. inversion E; subst.
  cbn [verbose port wheels shutters _pending_cmd wheel_target_positions
       io_log].
  rewrite W2, S2, P2, L2, Ps, W1, S1, L1, <- app_assoc.
  repeat split; auto.
  - intros w I. apply All. exact I.
  - eexists. reflexivity.
Qed.

End Closing.

(** ** The exceptions a call can raise *)

Lemma list_setitem_raises (l : list Z) (i v : Z) (e : exn) :
  list_setitem l i v = Raise e -> e = IndexError.
Proof.
  unfold list_setitem.
  destruct (_ && _); [discriminate|]. destruct (_ && _); [discriminate|].
  congruence.
Qed.

Lemma in_range_int (v : value) (n : nat) (a : Z) :
  py_in v (range n) = true -> as_int v = Ok a -> 0 <= a < Z.of_nat n.
Proof.
  intros I E. apply py_in_range in I as (z & -> & R).
  inversion E; subst. exact R.
Qed.

Lemma in_range_is_int (v : value) (n : nat) (e : exn) :
  py_in v (range n) = true -> as_int v = Raise e -> False.
Proof.
  intros I E. apply py_in_range in I as (z & -> & _). discriminate.
Qed.

Lemma channel_int (v c : value) (a : Z) :
  n2c v = Ok c -> as_int c = Ok a -> a = 0 \/ a = 1.
Proof.
  intros N E. destruct (n2c_ok _ _ N) as [-> | ->]; inversion E; auto.
Qed.

Lemma channel_is_int (v c : value) (e : exn) :
  n2c v = Ok c -> as_int c = Raise e -> False.
Proof.
  intros N E. destruct (n2c_ok _ _ N) as [-> | ->]; discriminate.
Qed.

Lemma move_bytes_never_fail (wheel c position speed : value) (a a0 a1 : Z)
    (e : exn) :
  n2c wheel = Ok c -> as_int c = Ok a ->
  py_in position (range 10) = true -> as_int position = Ok a1 ->
  py_in speed (range 8) = true -> as_int speed = Ok a0 ->
  bytes [Z.shiftl a 7 + Z.shiftl a0 4 + a1] = Raise e -> False.
Proof.
  intros N A Ip Ap Is As B.
  pose proof (channel_int _ _ _ N A) as Ra.
  pose proof (in_range_int _ _ _ Ip Ap) as Rp.
  pose proof (in_range_int _ _ _ Is As) as Rs.
  destruct (move_byte_fields a a0 a1) as [Sum Byte]; try (simpl in *; lia).
  unfold bytes, forallb in B. rewrite Sum, Byte in B. discriminate.
Qed.

Lemma shutter_bytes_never_fail (shutter c : value) (a k : Z) (e : exn) :
  n2c shutter = Ok c -> as_int c = Ok a -> k = 2 \/ k = 4 ->
  bytes [128 + 32 + Z.shiftl a 4 + 8 + k] = Raise e -> False.
Proof.
  intros N A K B.
  destruct (channel_int _ _ _ N A) as [-> | ->]; destruct K as [-> | ->];
    discriminate.
Qed.

Lemma mode_bytes_never_fail (shutter c : value) (a k : Z) (e : exn) :
  n2c shutter = Ok c -> as_int c = Ok a -> k = 220 \/ k = 221 ->
  bytes [k; a + 1] = Raise e -> False.
Proof.
  intros N A K B.
  destruct (channel_int _ _ _ N A) as [-> | ->]; destruct K as [-> | ->];
    discriminate.
Qed.

Lemma state_token_matches (state : value) :
  py_in state [VStr "closed"; VStr "open"; VInt 0; VInt 1] = true ->
  py_eq state (VStr "open") || py_eq state (VInt 1) = false ->
  py_eq state (VStr "closed") || py_eq state (VInt 0) = false -> False.
Proof.
  unfold py_in, existsb. intros I A B.
  apply orb_false_iff in A as [A1 A2]. apply orb_false_iff in B as [B1 B2].
  rewrite A1, A2, B1, B2 in I. discriminate.
Qed.

Lemma mode_token_matches (mode : value) :
  py_in mode [VStr "fast"; VStr "soft"] = true ->
  py_eq mode (VStr "fast") = false ->
  py_eq mode (VStr "soft") = false -> False.
Proof.
  unfold py_in, existsb. intros I A B. rewrite A, B in I. discriminate.
Qed.

Section Raises.

Context {T : Type} `{Transport T}.

Lemma finish_raises (self self' : Controller T) (e : exn) :
  _finish_moving self = (Raise e, self') ->
  (e = IOError /\ exists cmd, _pending_cmd self' = Some cmd)
  \/ (e = AssertionError /\ _pending_cmd self' = None).
Proof.
  intros E. destruct (_pending_cmd self) as [p|] eqn:P.
  - destruct (port_read (List.length p + 1) (port self)) as [resp t'] eqn:R.
    rewrite (finish_some self p resp t' P R) in E.
    destruct (bytes_eqb resp (echo p)).
    + destruct (port_in_waiting t' =? 0)%nat; [discriminate|].
      inversion E; subst. right. auto.
    + inversion E; subst. left. split; [reflexivity|]. exists p. reflexivity.
  - rewrite (finish_none self P) in E. discriminate.
Qed.

Lemma finish_if_pending_raises (self self' : Controller T) (e : exn) :
  finish_if_pending self = (Raise e, self') ->
  (e = IOError /\ exists cmd, _pending_cmd self' = Some cmd)
  \/ (e = AssertionError /\ _pending_cmd self' = None).
Proof.
  intros E. unfold finish_if_pending, bind, gets in E.
  destruct (_pending_cmd self).
  - exact (finish_raises _ _ _ E).
  - discriminate.
Qed.

End Raises.

(** Settles one way of raising met while running a call. *)
Ltac settle_raise E :=
  cbn [verbose port wheels shutters _pending_cmd wheel_target_positions
       io_log] in *;
  unfold raise_case;
  first
    [ apply finish_raises in E; destruct E as [(-> & ?)|(-> & ?)];
      solve [auto 6]
    | inversion E; subst;
      cbn [verbose port wheels shutters _pending_cmd wheel_target_positions
           io_log] in *;
      first
        [ solve [auto 6]
        | match goal with
          | N : n2c _ = Raise _ |- _ =>
              apply n2c_raises in N; subst; solve [auto 6]
          | F : finish_if_pending _ = (Raise _, _) |- _ =>
              apply finish_if_pending_raises in F;
              destruct F as [(-> & ?)|(-> & ?)]; solve [auto 6]
          | L : list_setitem _ _ _ = Raise _ |- _ =>
              apply list_setitem_raises in L; subst;
              right; right; right;
              split; [reflexivity|];
              split; [do 4 eexists; reflexivity|eexists; reflexivity]
          end
        | exfalso;
          match goal with
          | A : as_int ?v = Raise _, I : py_in ?v (range _) = true |- _ =>
              exact (in_range_is_int _ _ _ I A)
          | N : n2c _ = Ok ?c, A : as_int ?c = Raise _ |- _ =>
              exact (channel_is_int _ _ _ N A)
          | B : bytes [Z.shiftl _ 7 + _ + _] = Raise _ |- _ =>
              refine (move_bytes_never_fail _ _ _ _ _ _ _ _ _ _ _ _ _ _ B);
              eassumption
          | B : bytes [128 + 32 + _ + 8 + _] = Raise _ |- _ =>
              refine (shutter_bytes_never_fail _ _ _ _ _ _ _ _ B);
              first [eassumption | left; reflexivity | right; reflexivity]
          | B : bytes [_; _ + 1] = Raise _ |- _ =>
              refine (mode_bytes_never_fail _ _ _ _ _ _ _ _ B);
              first [eassumption | left; reflexivity | right; reflexivity]
          | _ => solve [ eapply state_token_matches; eassumption
                       | eapply mode_token_matches; eassumption ]
          end ] ].

Section Exceptions.

Context {T : Type} `{Transport T}.

Lemma call_raises (c : public_call) (self self' : Controller T) (e : exn) :
  run_call c self = (Raise e, self') -> raise_case c self self' e.
Proof.
  intros E. destruct c; simpl in E.
  - unfold move in E. unfold_monad E. crunch E; settle_raise E.
  - unfold change_shutter in E. unfold_monad E. crunch E; settle_raise E.
  - unfold set_shutter_mode in E. unfold_monad E. crunch E; settle_raise E.
Qed.

End Exceptions.

Section ExceptionKinds.

Context {T : Type} `{Transport T}.

(** X19: a public call raises nothing but [ValueError], [AssertionError],
    [IOError] and [IndexError]: the byte computed for a command is always
    a byte, and the last [elif] of the shutter methods always finds its
    word.  [ValueError] leaves the instance as it was, and [IndexError]
    comes from [move] alone. *)
Theorem call_exceptions (c : public_call) (self self' : Controller T)
    (e : exn) :
  run_call c self = (Raise e, self') ->
  (e = ValueError \/ e = AssertionError \/ e = IOError \/ e = IndexError)
  /\ (e = ValueError -> self' = self)
  /\ (e = IndexError ->
      exists position wheel speed block,
        c = CallMove position wheel speed block).
Proof.
  intros E.
  destruct (call_raises c self self' e E)
    as [(-> & ->)|[->|[(-> & _)|(-> & M & _)]]];
    repeat split; auto; try discriminate.
Qed.

(** X20: a call that raises [IOError] (the echo read was not the command
    followed by a carriage return) or [IndexError] leaves a command
    pending: the session is not back to idle. *)
Theorem failed_echo_leaves_command_pending (c : public_call)
    (self self' : Controller T) (e : exn) :
  run_call c self = (Raise e, self') ->
  e = IOError \/ e = IndexError ->
  exists cmd, _pending_cmd self' = Some cmd.
Proof.
  intros E K.
  destruct (call_raises c self self' e E)
    as [(-> & _)|[->|[(_ & P)|(_ & _ & P)]]]; auto;
    destruct K; discriminate.
Qed.

End ExceptionKinds.

(** ** The move byte, read back *)

Lemma move_byte_reads_back (w s p : Z) :
  0 <= w <= 1 -> 0 <= s <= 7 -> 0 <= p <= 9 ->
  let b := encode_move w p s in
  0 <= b < 256
  /\ Z.shiftr b 7 = w
  /\ Z.land (Z.shiftr b 4) 7 = s
  /\ Z.land b 15 = p.
Proof.
  intros Rw Rs Rp. enumerate w; enumerate s; enumerate p.
  all: cbv; repeat split; congruence.
Qed.

Section Decode.

Context {T : Type} `{Transport T}.

(** X18: the byte a valid move leaves pending gives the move back: its top
    bit is the channel, the next three bits the speed, the low four bits
    the position.  With a position of at most 9 it is never the byte of a
    shutter state command nor the first byte of a shutter mode command. *)
Theorem move_command_decodes (self : Controller T) (wheel : value)
    (w p s : Z) :
  n2c wheel = Ok (VInt w) -> In w (wheels self) ->
  0 <= p <= 9 -> 0 <= s <= 7 -> _pending_cmd self = None ->
  exists b,
    _pending_cmd (snd (move (VInt p) wheel (VInt s) false self)) = Some [b]
    /\ 0 <= b < 256
    /\ Z.shiftr b 7 = w
    /\ Z.land (Z.shiftr b 4) 7 = s
    /\ Z.land b 15 = p
    /\ (forall ch k, (ch = 0 \/ ch = 1) -> (k = 2 \/ k = 4) ->
          b <> 128 + 32 + Z.shiftl ch 4 + 8 + k)
    /\ b <> 220 /\ b <> 221.
Proof.
  intros N W Rp Rs P.
  assert (Rw : 0 <= w <= 1).
  { destruct (n2c_ok _ _ N) as [E|E]; inversion E; lia. }
  destruct (move_byte_reads_back w s p Rw Rs Rp) as (Rb & Dw & Ds & Dp).
  exists (encode_move w p s).
  rewrite (move_issue self wheel w p s false N W Rp Rs P).
  split.
  { destruct (list_setitem (wheel_target_positions self) w p);
      reflexivity. }
  repeat split; try tauto; try lia.
  - intros ch k [-> | ->] [-> | ->] E; rewrite E in Dp; cbv in Dp; lia.
  - intros E; rewrite E in Dp; cbv in Dp; lia.
  - intros E; rewrite E in Dp; cbv in Dp; lia.
Qed.

End Decode.

(** * Further runs on the scripted port *)

Lemma set_shutter_mode_writes_opcode_witness :
  set_shutter_mode (VStr "soft") (VStr "B") false
    (session [] [0; 1] None (mkMock [] [echo [221; 2]]))
  = (Ok tt,
     mkController false (mkMock [221; 2; 13] []) [] [0; 1]
       (Some [221; 2]) [] [EvWrite [221; 2]]).
Proof.
  exact (proj1 (set_shutter_mode_writes_opcode
                  (session [] [0; 1] None (mkMock [] [echo [221; 2]]))
                  (VStr "B") 1 false eq_refl
                  (or_intror (or_introl eq_refl)) eq_refl)).
Defined.

Lemma set_shutter_mode_words_only_witness :
  exists e,
    (e = ValueError \/ e = AssertionError)
    /\ set_shutter_mode (VInt 1) (VStr "A") true
         (session [] [0] (Some [172]) (mkMock [172; 13] []))
       = (Raise e, session [] [0] (Some [172]) (mkMock [172; 13] [])).
Proof.
  refine (set_shutter_mode_words_only
            (session [] [0] (Some [172]) (mkMock [172; 13] []))
            (VInt 1) (VStr "A") true _ _); discriminate.
Defined.

Lemma absent_channel_rejected_witness :
  run_call (CallMove (VInt 3) (VStr "C") (VInt 6) true)
    (session [0] [0] None (mkMock [] []))
  = (Raise ValueError, session [0] [0] None (mkMock [] []))
  /\ run_call (CallChangeShutter (VStr "open") (VStr "B") true)
       (session [0] [0] (Some [96]) (mkMock [96; 13] []))
     = (Raise AssertionError,
        session [0] [0] (Some [96]) (mkMock [96; 13] [])).
Proof.
  split.
  - refine (proj1 (absent_channel_rejected
                     (CallMove (VInt 3) (VStr "C") (VInt 6) true)
                     (session [0] [0] None (mkMock [] [])))
              ValueError _).
    reflexivity.
  - refine (proj2 (absent_channel_rejected
                     (CallChangeShutter (VStr "open") (VStr "B") true)
                     (session [0] [0] (Some [96]) (mkMock [96; 13] [])))
              1 _ _).
    + reflexivity.
    + simpl. intros [E|[]]. discriminate E.
Defined.

Lemma move_range_checked_when_idle_witness :
  move (VInt 10) (VStr "A") (VInt 6) true
    (session [0] [0] None (mkMock [] []))
  = (Raise AssertionError, session [0] [0] None (mkMock [] []))
  /\ move (VInt 3) (VStr "A") (VInt 8) false
       (session [0] [0] None (mkMock [] []))
     = (Raise AssertionError, session [0] [0] None (mkMock [] [])).
Proof.
  split.
  - refine (move_range_checked_when_idle
              (session [0] [0] None (mkMock [] []))
              (VInt 10) (VStr "A") (VInt 6) 0 true _ _ _ _).
    + reflexivity.
    + left; reflexivity.
    + reflexivity.
    + left; reflexivity.
  - refine (move_range_checked_when_idle
              (session [0] [0] None (mkMock [] []))
              (VInt 3) (VStr "A") (VInt 8) 0 false _ _ _ _).
    + reflexivity.
    + left; reflexivity.
    + reflexivity.
    + right; reflexivity.
Defined.

Lemma calls_keep_channels_witness :
  wheels (snd (run_call move_B two_wheels)) = [0; 1]
  /\ shutters (snd (run_call move_B two_wheels)) = []
  /\ verbose (snd (run_call move_B two_wheels)) = false
  /\ List.length (wheel_target_positions (snd (run_call move_B two_wheels)))
     = 2%nat.
Proof.
  refine (calls_keep_channels move_B two_wheels _ (Ok tt) _).
  vm_compute. reflexivity.
Defined.

Lemma call_outcome_witness :
  exists cmd before,
    _pending_cmd (snd (run_call move_B two_wheels)) = Some cmd
    /\ io_log (snd (run_call move_B two_wheels)) = before ++ [EvWrite cmd].
Proof.
  refine (call_outcome move_B two_wheels _ _).
  vm_compute. reflexivity.
Defined.

Lemma finish_moving_twice_witness :
  _finish_moving (snd (_finish_moving two_wheels))
  = (Ok tt, snd (_finish_moving two_wheels)).
Proof.
  refine (finish_moving_twice two_wheels _ _).
  vm_compute. reflexivity.
Defined.

(** Wheel B sent to 4 while the device answers with the wrong bytes. *)
Lemma move_target_recorded_witness :
  fst (move (VInt 4) (VStr "B") (VInt 6) true session_wrong_echo)
  = Raise IOError
  /\ nth 1 (wheel_target_positions
              (snd (move (VInt 4) (VStr "B") (VInt 6) true
                      session_wrong_echo))) (-1) = 4
  /\ nth 0 (wheel_target_positions
              (snd (move (VInt 4) (VStr "B") (VInt 6) true
                      session_wrong_echo))) (-1) = 6.
Proof.
  assert (R : move (VInt 4) (VStr "B") (VInt 6) true session_wrong_echo =
              (Raise IOError,
               snd (move (VInt 4) (VStr "B") (VInt 6) true
                      session_wrong_echo)))
    by (vm_compute; reflexivity).
  split; [vm_compute; reflexivity|]. split.
  - exact (move_target_recorded session_wrong_echo _ (VStr "B") 1 4 6 true
             (Raise IOError) eq_refl (or_intror (or_introl eq_refl))
             ltac:(lia) ltac:(lia) eq_refl ltac:(simpl; lia) R 1%nat).
  - exact (move_target_recorded session_wrong_echo _ (VStr "B") 1 4 6 true
             (Raise IOError) eq_refl (or_intror (or_introl eq_refl))
             ltac:(lia) ltac:(lia) eq_refl ltac:(simpl; lia) R 0%nat).
Defined.

Lemma wheel_C_refused_witness :
  __init__ (mkMock [] [frame_wheel_C]) false
  = (Raise AssertionError,
     mkController false (mkMock [] []) [] [] None []
       [EvWrite [253]; EvReadline frame_wheel_C]).
Proof.
  refine (wheel_C_refused (mkMock [] [frame_wheel_C]) (mkMock [] []) false
            frame_wheel_C
            ("WA-25WB-25WC-25SA-IQSB-IQ" ++ String "013" EmptyString)%string
            _ _ _ _).
  - vm_compute. reflexivity.
  - reflexivity.
  - vm_compute. reflexivity.
  - vm_compute. discriminate.
Defined.

Lemma non_ascii_answer_refused_witness :
  __init__ (mkMock [] [frame_non_ascii]) true
  = (Raise UnicodeDecodeError,
     mkController true (mkMock [] []) [] [] None []
       [EvWrite [253]; EvReadline frame_non_ascii]).
Proof.
  refine (non_ascii_answer_refused (mkMock [] [frame_non_ascii])
            (mkMock [] []) true frame_non_ascii 200 _ _ _ _).
  - vm_compute. reflexivity.
  - reflexivity.
  - vm_compute. tauto.
  - lia.
Defined.

Lemma tags_and_wheel_types_checked_witness :
  __init__ (mkMock [] [frame_bad_tag]) false
  = (Raise AssertionError,
     mkController false (mkMock [] []) [] [] None []
       [EvWrite [253]; EvReadline frame_bad_tag]).
Proof.
  refine (tags_and_wheel_types_checked (mkMock [] [frame_bad_tag])
            (mkMock [] []) false frame_bad_tag
            ("WA-25WX-NCWC-NCSA-IQSB-IQ" ++ String "013" EmptyString)%string
            _ _ _ _ _).
  - vm_compute. reflexivity.
  - reflexivity.
  - vm_compute. reflexivity.
  - vm_compute. reflexivity.
  - vm_compute. intros (_ & B & _). discriminate B.
Defined.

Lemma detected_channels_witness :
  resolve_configuration
    (new_instance (mkMock [] [config_frame "WA-25WB-NCWC-NCSA-VSSB-IQ"]) true)
  = (Ok tt,
     mkController true (mkMock [] []) [0] [1] None []
       [EvWrite [253];
        EvReadline (config_frame "WA-25WB-NCWC-NCSA-VSSB-IQ")]).
Proof.
  refine (detected_channels
            (mkMock [] [config_frame "WA-25WB-NCWC-NCSA-VSSB-IQ"])
            (mkMock [] []) true
            (config_frame "WA-25WB-NCWC-NCSA-VSSB-IQ")
            ("WA-25WB-NCWC-NCSA-VSSB-IQ" ++ String "013" EmptyString)%string
            _ _ _ _ _ _ _ _ _ _ _ _).
  all: try (vm_compute; reflexivity).
  - left; vm_compute; reflexivity.
  - right; vm_compute; reflexivity.
  - right; vm_compute; reflexivity.
  - left; vm_compute; reflexivity.
Defined.

Lemma init_establishes_witness :
  verbose (snd (__init__ device_A false)) = false
  /\ _pending_cmd (snd (__init__ device_A false)) = None
  /\ (wheels (snd (__init__ device_A false)) = []
      \/ wheels (snd (__init__ device_A false)) = [0]
      \/ wheels (snd (__init__ device_A false)) = [0; 1])
  /\ (shutters (snd (__init__ device_A false)) = []
      \/ shutters (snd (__init__ device_A false)) = [0]
      \/ shutters (snd (__init__ device_A false)) = [1]
      \/ shutters (snd (__init__ device_A false)) = [0; 1])
  /\ wheel_target_positions (snd (__init__ device_A false))
     = repeat 0 (List.length (wheels (snd (__init__ device_A false))))
  /\ (false = true ->
      wheels (snd (__init__ device_A false)) <> []
      \/ shutters (snd (__init__ device_A false)) <> []).
Proof.
  refine (init_establishes device_A false _ _).
  vm_compute. reflexivity.
Defined.

Lemma init_homing_sequence_witness :
  exists resp,
    List.length resp = 31%nat
    /\ io_log (snd (__init__ device_A false)) =
       EvWrite [253] :: EvReadline resp
       :: flat_map (fun w => exchange [Z.shiftl w 7 + Z.shiftl 6 4 + 0])
            (wheels (snd (__init__ device_A false)))
       ++ flat_map (fun sh => exchange [221; sh + 1]
                              ++ exchange [128 + 32 + Z.shiftl sh 4 + 8 + 4])
            (shutters (snd (__init__ device_A false))).
Proof.
  refine (init_homing_sequence device_A false _ _).
  vm_compute. reflexivity.
Defined.

Example close_run :
  close session_to_close
  = (Ok tt,
     mkController false (mkMock [] []) [0; 1] [1] None [0; 0]
       (exchange [96] ++ exchange [224] ++ exchange [188])).
Proof. vm_compute. reflexivity. Qed.

Lemma close_parks_and_closes_witness :
  wheels (snd (close session_to_close)) = [0; 1]
  /\ shutters (snd (close session_to_close)) = [1]
  /\ _pending_cmd (snd (close session_to_close)) = None
  /\ (forall w, In w [0; 1] ->
        nth (Z.to_nat w)
          (wheel_target_positions (snd (close session_to_close))) (-1) = 0)
  /\ io_log (snd (close session_to_close)) =
     [] ++ flat_map (fun w => exchange [Z.shiftl w 7 + Z.shiftl 6 4 + 0])
             [0; 1]
     ++ flat_map (fun sh => exchange [128 + 32 + Z.shiftl sh 4 + 8 + 4]) [1]
  /\ exists t', port (snd (close session_to_close)) = port_close t'.
Proof.
  refine (close_parks_and_closes session_to_close _ _ _).
  - reflexivity.
  - vm_compute. reflexivity.
Defined.

Lemma call_exceptions_witness :
  (IndexError = ValueError \/ IndexError = AssertionError
   \/ IndexError = IOError \/ IndexError = IndexError)
  /\ (IndexError = ValueError ->
      snd (run_call (CallMove (VInt 5) (VStr "B") (VInt 6) true)
             (session [1] [] None (mkMock [] [])))
      = session [1] [] None (mkMock [] []))
  /\ (IndexError = IndexError ->
      exists position wheel speed block,
        CallMove (VInt 5) (VStr "B") (VInt 6) true =
          CallMove position wheel speed block).
Proof.
  refine (call_exceptions (CallMove (VInt 5) (VStr "B") (VInt 6) true)
            (session [1] [] None (mkMock [] [])) _ IndexError _).
  vm_compute. reflexivity.
Defined.

Lemma failed_echo_leaves_command_pending_witness :
  exists cmd,
    _pending_cmd
      (snd (run_call (CallChangeShutter (VStr "open") (VStr "A") true)
              (session [] [0] None (mkMock [] [[170; 10]])))) = Some cmd.
Proof.
  refine (failed_echo_leaves_command_pending
            (CallChangeShutter (VStr "open") (VStr "A") true)
            (session [] [0] None (mkMock [] [[170; 10]])) _ IOError _ _).
  - vm_compute. reflexivity.
  - left; reflexivity.
Defined.

Lemma move_command_decodes_witness :
  exists b,
    _pending_cmd (snd (move (VInt 9) (VStr "B") (VInt 7) false
                         (session [0; 1] [] None (mkMock [] []))))
    = Some [b]
    /\ 0 <= b < 256
    /\ Z.shiftr b 7 = 1
    /\ Z.land (Z.shiftr b 4) 7 = 7
    /\ Z.land b 15 = 9
    /\ (forall ch k, (ch = 0 \/ ch = 1) -> (k = 2 \/ k = 4) ->
          b <> 128 + 32 + Z.shiftl ch 4 + 8 + k)
    /\ b <> 220 /\ b <> 221.
Proof.
  refine (move_command_decodes (session [0; 1] [] None (mkMock [] []))
            (VStr "B") 1 9 7 _ _ _ _ _).
  - reflexivity.
  - right; left; reflexivity.
  - lia.
  - lia.
  - reflexivity.
Defined.

(** * A call made while a command is pending *)

Lemma state_token_in (state : value) :
  py_eq state (VStr "open") || py_eq state (VInt 1) = true
  \/ py_eq state (VStr "closed") || py_eq state (VInt 0) = true ->
  py_in state [VStr "closed"; VStr "open"; VInt 0; VInt 1] = true.
Proof.
  unfold py_in, existsb.
  intros [O|C]; apply orb_true_iff in O || apply orb_true_iff in C;
    [destruct O as [->| ->]|destruct C as [->| ->]];
    rewrite ?orb_true_r; reflexivity.
Qed.

Lemma mode_token_in (mode : value) :
  py_eq mode (VStr "fast") = true \/ py_eq mode (VStr "soft") = true ->
  py_in mode [VStr "fast"; VStr "soft"] = true.
Proof.
  unfold py_in, existsb. intros [-> | ->]; rewrite ?orb_true_r; reflexivity.
Qed.

Section Pending.

Context {T : Type} `{Transport T}.

(** A shutter state command issued with nothing pending, for any state the
    method takes. *)
Lemma change_shutter_idle (self : Controller T) (state shutter : value)
    (ch : Z) (block : bool) (cmd : list Z) :
  n2c shutter = Ok (VInt ch) -> In ch (shutters self) ->
  _pending_cmd self = None ->
  command_bytes (CallChangeShutter state shutter block) ch = Some cmd ->
  change_shutter state shutter block self =
    when block _finish_moving (issued cmd self).
Proof.
  intros N I P C. cbn [command_bytes] in C.
  assert (Tok : py_in state [VStr "closed"; VStr "open"; VInt 0; VInt 1]
                = true).
  { apply state_token_in.
    destruct (py_eq state (VStr "open") || py_eq state (VInt 1)); [auto|].
    destruct (py_eq state (VStr "closed") || py_eq state (VInt 0)); [auto|].
    discriminate. }
  unfold change_shutter.
  unfold bind at 1. unfold lift at 1. rewrite N.
  unfold bind at 1, gets at 1. unfold bind at 1.
  rewrite (proj2 (py_in_ints ch (shutters self)) I).
  unfold assert at 1, ret at 1.
  unfold bind at 1. rewrite Tok. unfold assert at 1, ret at 1.
  unfold bind at 1. rewrite (finish_if_pending_none self P).
  destruct (py_eq state (VStr "open") || py_eq state (VInt 1)).
  - inversion C; subst cmd.
    destruct (n2c_ok _ _ N) as [E|E]; inversion E; subst ch; reflexivity.
  - destruct (py_eq state (VStr "closed") || py_eq state (VInt 0));
      [|discriminate].
    inversion C; subst cmd.
    destruct (n2c_ok _ _ N) as [E|E]; inversion E; subst ch; reflexivity.
Qed.

Lemma set_shutter_mode_idle (self : Controller T) (mode shutter : value)
    (ch : Z) (block : bool) (cmd : list Z) :
  n2c shutter = Ok (VInt ch) -> In ch (shutters self) ->
  _pending_cmd self = None ->
  command_bytes (CallSetShutterMode mode shutter block) ch = Some cmd ->
  set_shutter_mode mode shutter block self =
    when block _finish_moving (issued cmd self).
Proof.
  intros N I P C. cbn [command_bytes] in C.
  assert (Tok : py_in mode [VStr "fast"; VStr "soft"] = true).
  { apply mode_token_in.
    destruct (py_eq mode (VStr "fast")); [auto|].
    destruct (py_eq mode (VStr "soft")); [auto|].
    discriminate. }
  unfold set_shutter_mode.
  unfold bind at 1. unfold lift at 1. rewrite N.
  unfold bind at 1, gets at 1. unfold bind at 1.
  rewrite (proj2 (py_in_ints ch (shutters self)) I).
  unfold assert at 1, ret at 1.
  unfold bind at 1. rewrite Tok. unfold assert at 1, ret at 1.
  unfold bind at 1. rewrite (finish_if_pending_none self P).
  destruct (py_eq mode (VStr "fast")).
  - inversion C; subst cmd.
    destruct (n2c_ok _ _ N) as [E|E]; inversion E; subst ch; reflexivity.
  - destruct (py_eq mode (VStr "soft")); [|discriminate].
    inversion C; subst cmd.
    destruct (n2c_ok _ _ N) as [E|E]; inversion E; subst ch; reflexivity.
Qed.

(** What follows the write of [cmd], blocking or not. *)
Lemma issued_then (self : Controller T) (cmd : list Z) (block : bool) :
  exists r self' rest,
    when block _finish_moving (issued cmd self) = (r, self')
    /\ io_log self' = io_log self ++ EvWrite cmd :: rest
    /\ no_write rest = true
    /\ (block = false ->
        r = Ok tt /\ rest = [] /\ _pending_cmd self' = Some cmd
        /\ port self' = port_write cmd (port self)).
Proof.
  destruct block; unfold when.
  - destruct (_finish_moving (issued cmd self)) as [r s'] eqn:F.
    destruct (finish_frame _ _ _ F) as (_ & _ & _ & _ & evs & L & NW).
    exists r, s', evs. split; [reflexivity|].
    cbn [issued io_log] in L. rewrite L, <- app_assoc.
    repeat split; auto; discriminate.
  - exists (Ok tt), (issued cmd self), []. repeat split.
Qed.

(** A call whose arguments pass the checks, issued with nothing pending,
    writes its command first. *)
Lemma idle_issue (c : public_call) (self : Controller T) (ch : Z)
    (cmd : list Z) :
  _pending_cmd self = None ->
  n2c (channel_of c) = Ok (VInt ch) -> In ch (channels_for c self) ->
  command_bytes c ch = Some cmd ->
  exists r self' rest,
    run_call c self = (r, self')
    /\ io_log self' = io_log self ++ EvWrite cmd :: rest
    /\ no_write rest = true
    /\ (block_of c = false ->
        rest = [] /\ _pending_cmd self' = Some cmd
        /\ port self' = port_write cmd (port self)).
Proof.
  intros P N I C. destruct c as [position wheel speed block| |];
    cbn [channel_of channels_for run_call block_of] in *.
  - cbn [command_bytes] in C.
    destruct position as [p| |]; try discriminate.
    destruct speed as [s| |]; try discriminate.
    destruct (py_in (VInt p) (range 10)) eqn:Ip; [|discriminate].
    destruct (py_in (VInt s) (range 8)) eqn:Is; [|discriminate].
    cbn [andb] in C. inversion C; subst cmd.
    apply py_in_range in Ip as (p' & Ep & Rp). inversion Ep; subst p'.
    apply py_in_range in Is as (s' & Es & Rs). inversion Es; subst s'.
    assert (Rw : 0 <= ch <= 1).
    { destruct (n2c_ok _ _ N) as [E|E]; inversion E; lia. }
    destruct (move_byte_fields ch s p) as [Sum _];
      try (simpl in Rp, Rs; lia).
    rewrite (move_issue self wheel ch p s block N I)
      by (auto; simpl in Rp, Rs; lia).
    rewrite <- Sum.
    set (cmd := [Z.shiftl ch 7 + Z.shiftl s 4 + p]).
    destruct (list_setitem (wheel_target_positions self) ch p) as [ps|e].
    + destruct block; unfold when.
      * destruct (_finish_moving (with_targets ps (issued cmd self)))
          as [r s'] eqn:F.
        destruct (finish_frame _ _ _ F) as (_ & _ & _ & _ & evs & L & NW).
        exists r, s', evs. split; [reflexivity|].
        cbn [with_targets issued io_log] in L. rewrite L, <- app_assoc.
        repeat split; auto; discriminate.
      * exists (Ok tt), (with_targets ps (issued cmd self)), [].
        repeat split.
    + exists (Raise e), (issued cmd self), []. repeat split.
  - rewrite (change_shutter_idle self state shutter ch block cmd N I P C).
    destruct (issued_then self cmd block) as (r & s' & rest & E & L & NW & B).
    exists r, s', rest. repeat split; auto; apply B; assumption.
  - rewrite (set_shutter_mode_idle self mode shutter ch block cmd N I P C).
    destruct (issued_then self cmd block) as (r & s' & rest & E & L & NW & B).
    exists r, s', rest. repeat split; auto; apply B; assumption.
Qed.

(** A call on a channel of the controller, with a word its method takes,
    first completes what is pending; when that raises the call raises, and
    when it returns the call goes on as if issued then. *)
Lemma finish_first (c : public_call) (self : Controller T) (q : list Z)
    (ch : Z) :
  _pending_cmd self = Some q ->
  n2c (channel_of c) = Ok (VInt ch) -> In ch (channels_for c self) ->
  token_ok c = true ->
  run_call c self =
    match _finish_moving self with
    | (Ok _, s1) => run_call c s1
    | (Raise e, s1) => (Raise e, s1)
    end.
Proof.
  intros P N I Tok.
  apply py_in_ints in I.
  destruct (_finish_moving self) as [[[]|e] s1] eqn:F.
  - pose proof (finish_ok_pending _ _ F) as P1.
    destruct (finish_frame _ _ _ F) as (_ & W1 & S1 & _).
    destruct c; cbn [channel_of channels_for run_call token_ok] in *;
      unfold move, change_shutter, set_shutter_mode;
      unfold bind, lift, gets, assert, ret, raise;
      rewrite N; cbv beta iota;
      rewrite ?W1, ?S1, ?I, ?Tok; cbv beta iota;
      rewrite ?Tok; cbv beta iota;
      rewrite (finish_if_pending_some self q P), F,
        (finish_if_pending_none s1 P1);
      reflexivity.
  - destruct c; cbn [channel_of channels_for run_call token_ok] in *;
      unfold move, change_shutter, set_shutter_mode;
      unfold bind, lift, gets, assert, ret, raise;
      rewrite N; cbv beta iota;
      rewrite ?I, ?Tok; cbv beta iota;
      rewrite ?Tok; cbv beta iota;
      rewrite (finish_if_pending_some self q P), F;
      reflexivity.
Qed.

End Pending.

Section PendingCommand.

Context {T : Type} `{Transport T}.

(** C5: [_pending_cmd] is one optional attribute, so at most one command
    is pending.  For a public call made while [q] is pending:
    whatever its arguments, it writes nothing before it has read [q]'s
    echo, found it equal to [q] followed by a carriage return and found
    the port empty, and it then writes once.  When its channel is one of
    the controller's and its word one its method takes, it does read the
    [len(q)+1] bytes of the echo first: a wrong echo raises [IOError] with
    [q] still pending and nothing written; a right echo with bytes left on
    the port raises [AssertionError] with nothing written; a right echo
    alone on the port leaves nothing pending, and the call goes on as the
    same call on that idle instance, so that with arguments in range it
    writes the bytes of its command right after, and without blocking
    leaves exactly that command pending. *)
Theorem pending_echo_consumed_before_write
    (c : public_call) (self : Controller T) (q : list Z) :
  _pending_cmd self = Some q ->
  (forall (r : result unit) (self' : Controller T),
     run_call c self = (r, self') ->
     exists evs,
       io_log self' = io_log self ++ evs
       /\ (no_write evs = true
           \/ exists cmd rest,
                evs = EvRead (List.length q + 1) (q ++ [CR])
                      :: EvInWaiting 0 :: EvWrite cmd :: rest
                /\ no_write rest = true))
  /\ (forall (ch : Z) (resp : list Z) (t' : T),
        n2c (channel_of c) = Ok (VInt ch) ->
        In ch (channels_for c self) ->
        token_ok c = true ->
        port_read (List.length q + 1) (port self) = (resp, t') ->
        let n := (List.length q + 1)%nat in
        let seen (evs : list io_event) (pending : option (list Z)) :=
          mkController (verbose self) t' (wheels self) (shutters self)
            pending (wheel_target_positions self) (io_log self ++ evs) in
        (resp <> q ++ [CR] ->
         run_call c self = (Raise IOError, seen [EvRead n resp] (Some q)))
        /\ (resp = q ++ [CR] -> port_in_waiting t' <> 0%nat ->
            run_call c self =
              (Raise AssertionError,
               seen [EvRead n resp; EvInWaiting (port_in_waiting t')] None))
        /\ (resp = q ++ [CR] -> port_in_waiting t' = 0%nat ->
            let idle := seen [EvRead n resp; EvInWaiting 0] None in
            run_call c self = run_call c idle
            /\ forall cmd : list Z,
                 command_bytes c ch = Some cmd ->
                 exists r self' rest,
                   run_call c self = (r, self')
                   /\ io_log self' =
                      io_log self
                      ++ EvRead n (q ++ [CR]) :: EvInWaiting 0
                         :: EvWrite cmd :: rest
                   /\ no_write rest = true
                   /\ (block_of c = false ->
                       rest = []
                       /\ _pending_cmd self' = Some cmd
                       /\ port self' = port_write cmd t'))).
Proof.
  intros P. split.
  - intros r self' E. exact (calls_serialized c self self' q r P E).
  - intros ch resp t' N I Tok R n seen.
    pose proof (finish_first c self q ch P N I Tok) as FF.
    rewrite (finish_some self q resp t' P R) in FF. unfold echo in FF.
    refine (conj _ (conj _ _)).
    + intros NE. rewrite (bytes_eqb_neq _ _ NE) in FF. exact FF.
    + intros -> NZ. rewrite bytes_eqb_refl in FF.
      destruct (Nat.eqb_spec (port_in_waiting t') 0) as [Z0|_];
        [contradiction|].
      exact FF.
    + intros -> Z0 idle. rewrite bytes_eqb_refl, Z0 in FF.
      cbn [Nat.eqb] in FF. split; [exact FF|].
      intros cmd C.
      assert (I' : In ch (channels_for c idle)) by (destruct c; exact I).
      destruct (idle_issue c idle ch cmd eq_refl N I' C)
        as (r & s' & rest & E & L & NW & B).
      exists r, s', rest. rewrite FF.
      split; [exact E|]. split.
      * rewrite L. unfold idle, seen. cbn [io_log].
        rewrite <- app_assoc. reflexivity.
      * split; [exact NW|exact B].
Qed.

End PendingCommand.

(** Wheel A on its way to 6 with its echo arrived, and a move of wheel B
    to 1 issued without blocking: the echo of the first move is read, then
    the byte 225 is written and is what is pending. *)
Lemma pending_echo_consumed_before_write_witness :
  run_call move_B two_wheels
  = (Ok tt,
     mkController false (mkMock [225; 13] []) [0; 1] [] (Some [225]) [6; 1]
       [EvWrite [102]; EvRead 2 [102; 13]; EvInWaiting 0; EvWrite [225]])
  /\ exists r self' rest,
       run_call move_B two_wheels = (r, self')
       /\ io_log self' =
          [EvWrite [102]]
          ++ EvRead 2 ([102] ++ [CR]) :: EvInWaiting 0
             :: EvWrite [225] :: rest
       /\ no_write rest = true
       /\ (false = false ->
           rest = []
           /\ _pending_cmd self' = Some [225]
           /\ port self' = port_write [225] (mkMock [] [echo [225]])).
Proof.
  split; [vm_compute; reflexivity|].
  refine (proj2 (proj2 (proj2 (proj2
            (pending_echo_consumed_before_write move_B two_wheels [102]
               eq_refl)
            1 [102; 13] (mkMock [] [echo [225]]) _ _ _ _)) _ _) [225] _).
  - reflexivity.
  - right; left; reflexivity.
  - reflexivity.
  - reflexivity.
  - reflexivity.
  - reflexivity.
  - vm_compute. reflexivity.
Defined.
